(** * Training-script templates: a shallow embedding

    Embeds the two training scripts
    [templates/pytorch_train.py] and [templates/tensorflow_train.py]
    and states the job-execution contract over them.

    What is embedded from the scripts themselves: the data loading
    ([HumanizationDataset.__init__], [load_data]), item encoding
    ([HumanizationDataset.__getitem__]), the orchestration of
    [train_model] and [main], the hyper-parameter wiring, the metrics
    record, its file and the [METRICS:] line.

    What is external to the scripts (torch, transformers, keras, the file
    system, the JSON decoder) is a parameter: a record of outcomes, each
    call either returning a value or raising.  Opening the metrics file
    for writing may fail; once it is open, [json.dump] of a record of
    numbers and the final [print] are taken to complete.  Logging goes to
    the standard error stream and is not part of the trace; its one effect
    on control flow, the [len(...)] inside the "Loaded ..." message, is
    kept. *)

From Stdlib Require Import ZArith List String Ascii Bool Lia DecimalString.
Import ListNotations.
Local Open Scope string_scope.
Local Open Scope list_scope.

Set Implicit Arguments.
#[local] Set Warnings "-register-all".

(* ===================================================================== *)
(** * Python values                                                       *)
(* ===================================================================== *)

Module Py.

(** Exceptions the scripts can meet.  [BackendError] stands for anything a
    library call (torch, transformers, keras) raises on its own. *)
Inductive exn : Type :=
| FileNotFoundError (path : string)
| IsADirectoryError (path : string)
| OSError (path : string)
| JSONDecodeError
| KeyError (key : string)
| IndexError
| TypeError
| AttributeError
| BackendError (call : string).

Inductive result (A : Type) : Type :=
| Ok (a : A)
| Raise (e : exn).
Arguments Ok {A} a.
Arguments Raise {A} e.

Definition rbind {A B} (r : result A) (f : A -> result B) : result B :=
  match r with
  | Ok a => f a
  | Raise e => Raise e
  end.

Definition is_ok {A} (r : result A) : bool :=
  match r with Ok _ => true | Raise _ => false end.

(** A Python float is kept as its [repr] (the shortest decimal that reads
    back to the same float, which is also how [json.dumps] prints it).  The
    scripts do no float arithmetic. *)
Record pyfloat : Type := PyFloat { float_repr : string }.

(** Numbers as they occur in metric records. *)
Inductive num : Type :=
| NInt (z : Z)
| NFloat (f : pyfloat).

(** What [json.load] returns: [None], [bool], [int], [float], [str],
    [list], [dict] (insertion-ordered, unique keys). *)
Inductive json : Type :=
| JNull
| JBool (b : bool)
| JInt (z : Z)
| JFloat (f : pyfloat)
| JStr (s : string)
| JArr (items : list json)
| JObj (members : list (string * json)).

(** ** dict *)

Definition dict (V : Type) : Type := list (string * V).

Fixpoint dict_lookup {V} (d : dict V) (k : string) : option V :=
  match d with
  | [] => None
  | (k', v) :: d' => if String.eqb k' k then Some v else dict_lookup d' k
  end.

(** [d[k] = v]: replaces in place, or appends. *)
Fixpoint dict_set {V} (d : dict V) (k : string) (v : V) : dict V :=
  match d with
  | [] => [(k, v)]
  | (k', v') :: d' =>
      if String.eqb k' k then (k', v) :: d' else (k', v') :: dict_set d' k v
  end.

(** [d.update(u)] *)
Definition dict_update {V} (d u : dict V) : dict V :=
  fold_left (fun acc kv => dict_set acc (fst kv) (snd kv)) u d.

(** [d.get(k, default)] *)
Definition dict_get {V} (d : dict V) (k : string) (default : V) : V :=
  match dict_lookup d k with
  | Some v => v
  | None => default
  end.

Definition dict_keys {V} (d : dict V) : list string := map fst d.

Definition dict_has {V} (d : dict V) (k : string) : bool :=
  match dict_lookup d k with Some _ => true | None => false end.

(** ** str *)

(** [s.endswith(suffix)] *)
Definition endswith (s suffix : string) : bool :=
  let n := String.length s in
  let m := String.length suffix in
  (m <=? n)%nat && String.eqb (substring (n - m) m s) suffix.

(** [s.startswith(prefix)] *)
Definition startswith (s pre : string) : bool := String.prefix pre s.

Definition LF : ascii := "010"%char.
Definition CR : ascii := "013"%char.
(** The double-quote character. *)
Definition DQ : ascii := "034"%char.

(** Text mode with universal newlines ([open(path, 'r')]): "\r\n" and a
    lone "\r" read as "\n". *)
Fixpoint universal_newlines (s : string) : string :=
  match s with
  | EmptyString => EmptyString
  | String c rest =>
      if Ascii.eqb c CR then
        match rest with
        | String c' rest' =>
            if Ascii.eqb c' LF then String LF (universal_newlines rest')
            else String LF (universal_newlines rest)
        | EmptyString => String LF EmptyString
        end
      else String c (universal_newlines rest)
  end.

(** [for line in f]: each line keeps its terminator; a last line without
    one is still a line. *)
Fixpoint lines_from (cur : string) (s : string) : list string :=
  match s with
  | EmptyString =>
      match cur with EmptyString => [] | _ => [cur] end
  | String c rest =>
      if Ascii.eqb c LF
      then String.append cur (String LF EmptyString) :: lines_from EmptyString rest
      else lines_from (String.append cur (String c EmptyString)) rest
  end.

Definition readlines (content : string) : list string :=
  lines_from EmptyString (universal_newlines content).

(** [os.path.join(a, b)] for a relative [b] (POSIX). *)
Definition path_join (a b : string) : string :=
  if String.eqb a "" then b
  else if endswith a "/" then String.append a b
  else String.append a (String.append "/" b).

(** ** len, truth value, subscripting *)

(** [len(x)] for a decoded JSON value (a string's length is counted in
    the characters of its [string] here). *)
Definition py_len (v : json) : result nat :=
  match v with
  | JArr items => Ok (List.length items)
  | JObj members => Ok (List.length members)
  | JStr s => Ok (String.length s)
  | JNull | JBool _ | JInt _ | JFloat _ => Raise TypeError
  end.

(** [bool(x)] *)
Definition truthy (v : json) : bool :=
  match v with
  | JNull => false
  | JBool b => b
  | JInt z => negb (Z.eqb z 0)
  | JFloat f => negb (String.eqb (float_repr f) "0.0" || String.eqb (float_repr f) "-0.0")
  | JStr s => negb (String.eqb s "")
  | JArr items => negb (Nat.eqb (List.length items) 0)
  | JObj members => negb (Nat.eqb (List.length members) 0)
  end.

(** [xs[i]] on a list, with Python's negative indices. *)
Definition list_index {A} (xs : list A) (i : Z) : result A :=
  let n := Z.of_nat (List.length xs) in
  let j := if (i <? 0)%Z then (i + n)%Z else i in
  if ((0 <=? j) && (j <? n))%Z then
    match nth_error xs (Z.to_nat j) with
    | Some x => Ok x
    | None => Raise IndexError
    end
  else Raise IndexError.

(** [data[idx]] with an integer [idx]. *)
Definition py_index (v : json) (i : Z) : result json :=
  match v with
  | JArr items => list_index items i
  | JStr s =>
      match list_index (list_ascii_of_string s) i with
      | Ok c => Ok (JStr (String c EmptyString))
      | Raise e => Raise e
      end
  | JObj _ => Raise (KeyError (NilZero.string_of_int (Z.to_int i)))
  | JNull | JBool _ | JInt _ | JFloat _ => Raise TypeError
  end.

(** [item[key]] with a string [key]. *)
Definition py_subscript (v : json) (key : string) : result json :=
  match v with
  | JObj members =>
      match dict_lookup members key with
      | Some x => Ok x
      | None => Raise (KeyError key)
      end
  | _ => Raise TypeError
  end.

(** [config.get(key, default)]: only a dict has [.get]. *)
Definition config_get (config : json) (key : string) (default : json) : result json :=
  match config with
  | JObj members => Ok (dict_get members key default)
  | _ => Raise AttributeError
  end.

(** ** json.dumps / json.dump of a metrics record

    Keys are the scripts' own literals (plain ASCII, nothing to escape);
    values are numbers. *)

Definition int_repr (z : Z) : string := NilZero.string_of_int (Z.to_int z).

Definition num_repr (n : num) : string :=
  match n with
  | NInt z => int_repr z
  | NFloat f => float_repr f
  end.

Definition quoted (s : string) : string :=
  String DQ (String.append s (String DQ EmptyString)).

Definition member_repr (kv : string * num) : string :=
  String.append (quoted (fst kv)) (String.append ": " (num_repr (snd kv))).

(** [json.dumps(metrics)] *)
Definition json_dumps (d : dict num) : string :=
  String.append "{" (String.append (String.concat ", " (map member_repr d)) "}").

Definition NL : string := String LF EmptyString.

(** [json.dump(metrics, f, indent=2)]: the text that ends up in the file. *)
Definition json_dump_indent2 (d : dict num) : string :=
  match d with
  | [] => "{}"
  | _ =>
      String.append "{"
        (String.append NL
           (String.append
              (String.concat (String.append "," NL)
                 (map (fun kv => String.append "  " (member_repr kv)) d))
              (String.append NL "}")))
  end.

End Py.
Export Py.

(* ===================================================================== *)
(** * A decoder for JSON text                                             *)
(* ===================================================================== *)

(** The scripts call [json.load] / [json.loads]; in the general results
    below the decoder is a field of the environment.  [JsonText.loads] is
    a decoder for the fragment the examples use: white space, [null],
    [true], [false], integer literals, strings without escapes, arrays
    and objects.  Text outside the fragment (float literals, escapes) is
    reported as undecodable, so it is only ever run on fragment text. *)
Module JsonText.

Definition is_ws (c : ascii) : bool :=
  Ascii.eqb c " " || Ascii.eqb c "009" || Ascii.eqb c LF || Ascii.eqb c CR.

Fixpoint skip_ws (s : string) : string :=
  match s with
  | String c r => if is_ws c then skip_ws r else s
  | EmptyString => EmptyString
  end.

Definition is_digit (c : ascii) : bool :=
  (48 <=? nat_of_ascii c)%nat && (nat_of_ascii c <=? 57)%nat.

Fixpoint take_digits (s : string) : string * string :=
  match s with
  | String c r =>
      if is_digit c
      then let '(ds, rest) := take_digits r in (String c ds, rest)
      else (EmptyString, s)
  | EmptyString => (EmptyString, EmptyString)
  end.

Definition digits_value (ds : string) : Z :=
  fold_left (fun acc c => (10 * acc + Z.of_nat (nat_of_ascii c - 48))%Z)
            (list_ascii_of_string ds) 0%Z.

Fixpoint strip_prefix (p s : string) : option string :=
  match p with
  | EmptyString => Some s
  | String a p' =>
      match s with
      | String b s' => if Ascii.eqb a b then strip_prefix p' s' else None
      | EmptyString => None
      end
  end.

(** The body of a string literal, up to its closing quote. *)
Fixpoint scan_string (s : string) : option (string * string) :=
  match s with
  | EmptyString => None
  | String c r =>
      if Ascii.eqb c DQ then Some (EmptyString, r)
      else if Ascii.eqb c "092" || (nat_of_ascii c <? 32)%nat then None
      else match scan_string r with
           | Some (body, rest) => Some (String c body, rest)
           | None => None
           end
  end.

Definition starts_fraction (s : string) : bool :=
  match s with
  | String c _ => Ascii.eqb c "." || Ascii.eqb c "e" || Ascii.eqb c "E"
  | EmptyString => false
  end.

Definition parse_int (s : string) : option (json * string) :=
  let '(neg, s1) := match strip_prefix "-" s with
                    | Some r => (true, r)
                    | None => (false, s)
                    end in
  let '(ds, rest) := take_digits s1 in
  match ds with
  | EmptyString => None
  | String d more =>
      if Ascii.eqb d "0" && negb (String.eqb more "") then None
      else if starts_fraction rest then None
      else Some (JInt (if neg then - digits_value ds else digits_value ds)%Z, rest)
  end.

Fixpoint parse_value (fuel : nat) (s : string) {struct fuel} : option (json * string) :=
  match fuel with
  | O => None
  | S fuel' =>
      let s0 := skip_ws s in
      match strip_prefix "null" s0, strip_prefix "true" s0, strip_prefix "false" s0 with
      | Some r, _, _ => Some (JNull, r)
      | _, Some r, _ => Some (JBool true, r)
      | _, _, Some r => Some (JBool false, r)
      | None, None, None =>
          match s0 with
          | String c r =>
              if Ascii.eqb c DQ then
                match scan_string r with
                | Some (body, rest) => Some (JStr body, rest)
                | None => None
                end
              else if Ascii.eqb c "[" then
                match strip_prefix "]" (skip_ws r) with
                | Some rest => Some (JArr [], rest)
                | None =>
                    match parse_items fuel' r with
                    | Some (items, rest) => Some (JArr items, rest)
                    | None => None
                    end
                end
              else if Ascii.eqb c "{" then
                match strip_prefix "}" (skip_ws r) with
                | Some rest => Some (JObj [], rest)
                | None =>
                    match parse_members fuel' r with
                    | Some (raw, rest) => Some (JObj (dict_update [] raw), rest)
                    | None => None
                    end
                end
              else parse_int s0
          | EmptyString => None
          end
      end
  end

with parse_items (fuel : nat) (s : string) {struct fuel} : option (list json * string) :=
  match fuel with
  | O => None
  | S fuel' =>
      match parse_value fuel' s with
      | Some (v, r) =>
          let r0 := skip_ws r in
          match strip_prefix "," r0, strip_prefix "]" r0 with
          | Some r1, _ =>
              match parse_items fuel' r1 with
              | Some (vs, rest) => Some (v :: vs, rest)
              | None => None
              end
          | None, Some rest => Some ([v], rest)
          | None, None => None
          end
      | None => None
      end
  end

with parse_members (fuel : nat) (s : string) {struct fuel} : option (dict json * string) :=
  match fuel with
  | O => None
  | S fuel' =>
      match strip_prefix (String DQ EmptyString) (skip_ws s) with
      | None => None
      | Some r =>
          match scan_string r with
          | None => None
          | Some (key, r1) =>
              match strip_prefix ":" (skip_ws r1) with
              | None => None
              | Some r2 =>
                  match parse_value fuel' r2 with
                  | None => None
                  | Some (v, r3) =>
                      let r4 := skip_ws r3 in
                      match strip_prefix "," r4, strip_prefix "}" r4 with
                      | Some r5, _ =>
                          match parse_members fuel' r5 with
                          | Some (ms, rest) => Some ((key, v) :: ms, rest)
                          | None => None
                          end
                      | None, Some rest => Some ([(key, v)], rest)
                      | None, None => None
                      end
                  end
              end
          end
      end
  end.

Definition loads (s : string) : result json :=
  match parse_value (2 * String.length s + 2) s with
  | Some (v, rest) =>
      match skip_ws rest with
      | EmptyString => Ok v
      | _ => Raise JSONDecodeError
      end
  | None => Raise JSONDecodeError
  end.

End JsonText.

(* ===================================================================== *)
(** * The libraries' data, as the scripts hand it over                    *)
(* ===================================================================== *)

Module Lib.

(** ** transformers / torch *)

(** A loaded tokenizer: its ids for a text (special tokens included) and
    its padding id. *)
Record tokenizer : Type := {
  tokenize : string -> list Z;
  pad_token_id : Z;
}.

(** A tensor of rank 0, 1 or 2. *)
Inductive tensor : Type :=
| T0 (x : Z)
| T1 (xs : list Z)
| T2 (rows : list (list Z)).

(** [t.squeeze()]: every dimension of size 1 is removed. *)
Definition squeeze (t : tensor) : tensor :=
  match t with
  | T0 x => T0 x
  | T1 [x] => T0 x
  | T1 xs => T1 xs
  | T2 [[x]] => T0 x
  | T2 [row] => T1 row
  | T2 rows =>
      if forallb (fun r => Nat.eqb (List.length r) 1) rows && negb (Nat.eqb (List.length rows) 0)
      then T1 (List.concat rows)
      else T2 rows
  end.

(** [len(t)]: the size of the first dimension; a rank-0 tensor has none. *)
Definition tensor_len (t : tensor) : result nat :=
  match t with
  | T0 _ => Raise TypeError
  | T1 xs => Ok (List.length xs)
  | T2 rows => Ok (List.length rows)
  end.

Record BatchEncoding : Type := {
  be_input_ids : tensor;
  be_attention_mask : tensor;
}.

(** [tokenizer(text, max_length=L, padding='max_length', truncation=True,
    return_tensors='pt')] on one text: the ids cut to [L], padded on the
    right to [L], the mask 1 on ids and 0 on padding; both of shape
    [(1, L)]. *)
Definition tokenizer_call (tk : tokenizer) (text max_length : json) : result BatchEncoding :=
  match text, max_length with
  | JStr s, JInt L =>
      if (L <? 0)%Z then Raise (BackendError "tokenizer")
      else
        let n := Z.to_nat L in
        let ids := firstn n (tokenize tk s) in
        let k := List.length ids in
        Ok {| be_input_ids := T2 [ids ++ repeat (pad_token_id tk) (n - k)];
              be_attention_mask := T2 [repeat 1%Z k ++ repeat 0%Z (n - k)] |}
  | _, _ => Raise (BackendError "tokenizer")
  end.

(** [HumanizationDataset]'s three attributes. *)
Record HumanizationDataset : Type := {
  ds_tokenizer : tokenizer;
  ds_max_length : json;
  ds_data : json;
}.

(** The keyword arguments the script gives [TrainingArguments]. *)
Record TrainingArguments : Type := {
  ta_output_dir : string;
  num_train_epochs : json;
  per_device_train_batch_size : json;
  per_device_eval_batch_size : json;
  learning_rate : json;
  warmup_steps : json;
  logging_dir : string;
  logging_steps : json;
  save_steps : json;
  eval_steps : json;
  evaluation_strategy : string;
  save_total_limit : json;
  load_best_model_at_end : bool;
  metric_for_best_model : string;
  greater_is_better : bool;
  fp16 : json;
  dataloader_num_workers : json;
  report_to : string;
}.

(** ** keras callbacks *)

Inductive callback : Type :=
| ModelCheckpoint (filepath monitor : string) (save_best_only : bool) (verbose : Z)
| EarlyStopping (monitor : string) (patience : json) (verbose : Z)
| ReduceLROnPlateau (monitor : string) (factor : pyfloat) (patience : Z) (verbose : Z).

(** The keyword arguments the script gives [Trainer]; it passes no
    [callbacks]. *)
Record Trainer : Type := {
  tr_model : string;
  tr_args : TrainingArguments;
  tr_train_dataset : HumanizationDataset;
  tr_eval_dataset : option HumanizationDataset;
  tr_tokenizer : tokenizer;
  tr_callbacks : list callback;
}.

(** What [trainer.train()] returns. *)
Record TrainOutput : Type := {
  training_loss : num;
  train_metrics : dict num;
}.

(** The keyword arguments the script gives [model.fit]; it passes no
    training or validation data (both are commented out in the source). *)
Record FitArgs : Type := {
  fit_epochs : json;
  fit_batch_size : json;
  fit_callbacks : list callback;
  fit_verbose : Z;
}.

(** [history.history] *)
Definition History : Type := dict (list pyfloat).

End Lib.
Export Lib.

(* ===================================================================== *)
(** * Runs: the environment, the trace, the monad                         *)
(* ===================================================================== *)

Module Run.

Inductive node : Type :=
| File (content : string)
| Dir.

(** The file system as the run finds it, the decoder, and whether a path
    can be opened for writing. *)
Record env : Type := {
  lookup : string -> option node;
  open_w : string -> result unit;
  json_loads : string -> result json;
}.

(** [os.path.exists(p)] *)
Definition path_exists (E : env) (p : string) : bool :=
  match lookup E p with Some _ => true | None => false end.

(** [open(p, 'r', encoding='utf-8')] followed by reading the text. *)
Definition open_r (E : env) (p : string) : result string :=
  match lookup E p with
  | Some (File content) => Ok content
  | Some Dir => Raise (IsADirectoryError p)
  | None => Raise (FileNotFoundError p)
  end.

(** What a run does to the outside, in order.  A library call is recorded
    when it has returned. *)
Inductive event : Type :=
| EvRead (path : string)
| EvLoadTokenizer (name : string)
| EvLoadModel (name : string)
| EvTrain (t : Trainer)
| EvSaveModel (dir : string)
| EvSaveTokenizer (dir : string)
| EvEvaluate
| EvCreateModel
| EvCompile
| EvFit (a : FitArgs)
| EvKerasSave (path : string)
| EvWrite (path content : string)
| EvPrint (line : string).

(** A computation: the events so far and a value or an exception. *)
Definition M (A : Type) : Type := (list event * result A)%type.

Definition ret {A} (a : A) : M A := ([], Ok a).
Definition lift {A} (r : result A) : M A := ([], r).
Definition emit (e : event) : M unit := ([e], Ok tt).

Definition bind {A B} (m : M A) (f : A -> M B) : M B :=
  match m with
  | (t, Ok a) => let '(t', r) := f a in (t ++ t', r)
  | (t, Raise e) => (t, Raise e)
  end.

(** A library call: its outcome, and the event once it has returned. *)
Definition call {A} (ev : event) (r : result A) : M A :=
  bind (lift r) (fun a => bind (emit ev) (fun _ => ret a)).

Definition trace {A} (m : M A) : list event := fst m.
Definition outcome {A} (m : M A) : result A := snd m.

(** [sys.exit(main())]: the returned code, or 1 with a traceback when an
    exception reaches the top. *)
Definition exit_status (r : result Z) : Z :=
  match r with
  | Ok code => code
  | Raise _ => 1%Z
  end.

(** The files on disk after the writes of a trace. *)
Fixpoint disk_after (t : list event) (disk : string -> option node) : string -> option node :=
  match t with
  | [] => disk
  | EvWrite p content :: t' =>
      disk_after t' (fun q => if String.eqb q p then Some (File content) else disk q)
  | _ :: t' => disk_after t' disk
  end.

(** [[f(x) for x in xs]] with a fallible [f]: stops at the first failure. *)
Fixpoint map_result {A B} (f : A -> result B) (xs : list A) : result (list B) :=
  match xs with
  | [] => Ok []
  | x :: xs' =>
      match f x with
      | Ok y => match map_result f xs' with
                | Ok ys => Ok (y :: ys)
                | Raise e => Raise e
                end
      | Raise e => Raise e
      end
  end.

(** [val_data_path and os.path.exists(val_data_path)] *)
Definition path_given_and_exists (E : env) (p : option string) : bool :=
  match p with
  | None => false
  | Some s => negb (String.eqb s "") && path_exists E s
  end.

Definition is_metrics_line (e : event) : bool :=
  match e with
  | EvPrint line => startswith line "METRICS:"
  | _ => false
  end.

Definition is_write_to (p : string) (e : event) : bool :=
  match e with
  | EvWrite q _ => String.eqb q p
  | _ => false
  end.

End Run.
Export Run.

Declare Scope run_scope.
Delimit Scope run_scope with run.
Notation "x <- m ;; k" := (Run.bind m (fun x => k))
  (at level 61, m at next level, right associativity) : run_scope.
Notation "m ;;; k" := (Run.bind m (fun _ => k))
  (at level 61, right associativity) : run_scope.
Notation "'try' x := r 'in' k" := (Py.rbind r (fun x => k))
  (at level 61, x name, r at next level, right associativity) : run_scope.

Local Open Scope run_scope.

(* ===================================================================== *)
(** * templates/pytorch_train.py                                          *)
(* ===================================================================== *)

Module PyTorchTrain.

(** The calls into transformers; each returns or raises. *)
Record backend : Type := {
  AutoTokenizer_from_pretrained : string -> result tokenizer;
  AutoModel_from_pretrained : string -> result unit;
  TrainingArguments_init : TrainingArguments -> result unit;
  Trainer_init : Trainer -> result unit;
  Trainer_train : Trainer -> result TrainOutput;
  Trainer_save_model : Trainer -> result unit;
  Tokenizer_save_pretrained : string -> result unit;
  Trainer_evaluate : Trainer -> result (dict num);
}.

(** The records of a data file: [json.load(f)] for a [.json] path,
    otherwise [[json.loads(line) for line in f]]. *)
Definition read_records (E : env) (data_path content : string) : result json :=
  if endswith data_path ".json"
  then json_loads E content
  else try rs := map_result (json_loads E) (readlines content) in Ok (JArr rs).

(** [HumanizationDataset.__init__] (pytorch_train.py, lines 27-35). *)
Definition HumanizationDataset_init
    (E : env) (data_path : string) (tk : tokenizer) (max_length : json)
  : M HumanizationDataset :=
  content <- call (EvRead data_path) (open_r E data_path) ;;
  data <- lift (read_records E data_path content) ;;
  _ <- lift (py_len data) ;;
  ret {| ds_tokenizer := tk; ds_max_length := max_length; ds_data := data |}.

(** [HumanizationDataset.__len__] (lines 37-38). *)
Definition HumanizationDataset_len (ds : HumanizationDataset) : result nat :=
  py_len (ds_data ds).

(** What [__getitem__] returns. *)
Record EncodedItem : Type := {
  input_ids : tensor;
  attention_mask : tensor;
  labels : tensor;
}.

(** [HumanizationDataset.__getitem__] (lines 40-66). *)
Definition HumanizationDataset_getitem (ds : HumanizationDataset) (idx : Z)
  : result EncodedItem :=
  try item := py_index (ds_data ds) idx in
  try original := py_subscript item "input" in
  try humanized := py_subscript item "output" in
  try inputs := tokenizer_call (ds_tokenizer ds) original (ds_max_length ds) in
  try targets := tokenizer_call (ds_tokenizer ds) humanized (ds_max_length ds) in
  Ok {| input_ids := squeeze (be_input_ids inputs);
        attention_mask := squeeze (be_attention_mask inputs);
        labels := squeeze (be_input_ids targets) |}.

(** The truth value of [val_dataset]: [None] is false; a dataset has no
    [__bool__], so Python asks its [__len__]. *)
Definition dataset_truthy (ds : option HumanizationDataset) : result bool :=
  match ds with
  | None => Ok false
  | Some d => try n := HumanizationDataset_len d in Ok (negb (Nat.eqb n 0))
  end.

(** The [TrainingArguments(...)] expression of [train_model] (lines
    95-114), keyword by keyword, in evaluation order. *)
Definition training_arguments
    (output_dir : string) (config : json) (val_dataset : option HumanizationDataset)
  : result TrainingArguments :=
  try epochs := config_get config "epochs" (JInt 10) in
  try train_bs := config_get config "batch_size" (JInt 8) in
  try eval_bs := config_get config "batch_size" (JInt 8) in
  try lr := config_get config "learning_rate" (JFloat (PyFloat "5e-05")) in
  try warmup := config_get config "warmup_steps" (JInt 500) in
  try log_steps := config_get config "logging_steps" (JInt 100) in
  try sv_steps := config_get config "save_steps" (JInt 1000) in
  try v1 := dataset_truthy val_dataset in
  try ev_steps := (if v1 then config_get config "eval_steps" (JInt 500) else Ok JNull) in
  try v2 := dataset_truthy val_dataset in
  try limit := config_get config "save_total_limit" (JInt 3) in
  try v3 := dataset_truthy val_dataset in
  try half := config_get config "fp16" (JBool false) in
  try workers := config_get config "num_workers" (JInt 4) in
  Ok {| ta_output_dir := output_dir;
        num_train_epochs := epochs;
        per_device_train_batch_size := train_bs;
        per_device_eval_batch_size := eval_bs;
        learning_rate := lr;
        warmup_steps := warmup;
        logging_dir := String.append output_dir "/logs";
        logging_steps := log_steps;
        save_steps := sv_steps;
        eval_steps := ev_steps;
        evaluation_strategy := if v2 then "steps" else "no";
        save_total_limit := limit;
        load_best_model_at_end := if v3 then true else false;
        metric_for_best_model := "loss";
        greater_is_better := false;
        fp16 := half;
        dataloader_num_workers := workers;
        report_to := "none" |}.

Definition metrics_file (output_dir : string) : string :=
  path_join output_dir "training_metrics.json".

(** [train_model] (lines 69-155). *)
Definition train_model
    (E : env) (B : backend)
    (model_name train_data_path : string) (val_data_path : option string)
    (output_dir : string) (config : json)
  : M (dict num) :=
  tokenizer <- call (EvLoadTokenizer model_name) (AutoTokenizer_from_pretrained B model_name) ;;
  _ <- call (EvLoadModel model_name) (AutoModel_from_pretrained B model_name) ;;
  max_length <- lift (config_get config "max_length" (JInt 512)) ;;
  train_dataset <- HumanizationDataset_init E train_data_path tokenizer max_length ;;
  val_dataset <-
    (if path_given_and_exists E val_data_path then
       max_length' <- lift (config_get config "max_length" (JInt 512)) ;;
       ds <- HumanizationDataset_init E (match val_data_path with Some p => p | None => "" end)
               tokenizer max_length' ;;
       ret (Some ds)
     else ret None) ;;
  training_args <- lift (training_arguments output_dir config val_dataset) ;;
  _ <- lift (TrainingArguments_init B training_args) ;;
  let trainer := {| tr_model := model_name;
                    tr_args := training_args;
                    tr_train_dataset := train_dataset;
                    tr_eval_dataset := val_dataset;
                    tr_tokenizer := tokenizer;
                    tr_callbacks := [] |} in
  _ <- lift (Trainer_init B trainer) ;;
  train_result <- call (EvTrain trainer) (Trainer_train B trainer) ;;
  _ <- call (EvSaveModel output_dir) (Trainer_save_model B trainer) ;;
  _ <- call (EvSaveTokenizer output_dir) (Tokenizer_save_pretrained B output_dir) ;;
  let metrics :=
    [ ("train_loss", training_loss train_result);
      ("train_runtime", dict_get (train_metrics train_result) "train_runtime" (NInt 0));
      ("train_samples_per_second",
        dict_get (train_metrics train_result) "train_samples_per_second" (NInt 0));
      ("epoch", dict_get (train_metrics train_result) "epoch" (NInt 0)) ] in
  has_val <- lift (dataset_truthy val_dataset) ;;
  metrics <-
    (if has_val then
       eval_result <- call EvEvaluate (Trainer_evaluate B trainer) ;;
       ret (dict_update metrics [("eval_loss", dict_get eval_result "eval_loss" (NInt 0))])
     else ret metrics) ;;
  let metrics_path := metrics_file output_dir in
  _ <- lift (open_w E metrics_path) ;;
  _ <- emit (EvWrite metrics_path (json_dump_indent2 metrics)) ;;
  ret metrics.

(** The parsed command line. *)
Record args : Type := {
  arg_model_name : string;
  arg_train_data : string;
  arg_val_data : option string;
  arg_output_dir : string;
  arg_config : string;
}.

Definition metrics_line (metrics : dict num) : string :=
  String.append "METRICS: " (json_dumps metrics).

(** [main] (lines 158-184), after [parse_args]. *)
Definition main (E : env) (B : backend) (a : args) : M Z :=
  content <- call (EvRead (arg_config a)) (open_r E (arg_config a)) ;;
  config <- lift (json_loads E content) ;;
  metrics <- train_model E B (arg_model_name a) (arg_train_data a) (arg_val_data a)
               (arg_output_dir a) config ;;
  _ <- emit (EvPrint (metrics_line metrics)) ;;
  ret 0%Z.

End PyTorchTrain.

(* ===================================================================== *)
(** * templates/tensorflow_train.py                                       *)
(* ===================================================================== *)

Module TensorFlowTrain.

(** The calls into keras; each returns or raises.  [create_model] only
    assembles keras layers, so it is one of them. *)
Record backend : Type := {
  create_model : json -> json -> json -> json -> result unit;
  model_compile : json -> result unit;
  model_fit : FitArgs -> result History;
  model_save : string -> result unit;
}.

(** [load_data] (tensorflow_train.py, lines 22-34). *)
Definition load_data (E : env) (data_path : string) : M json :=
  data <-
    (if endswith data_path ".json" then
       content <- call (EvRead data_path) (open_r E data_path) ;;
       lift (json_loads E content)
     else
       content <- call (EvRead data_path) (open_r E data_path) ;;
       lift (try rs := map_result (json_loads E) (readlines content) in Ok (JArr rs))) ;;
  _ <- lift (py_len data) ;;
  ret data.

(** The [callbacks_list] of [train_model] (lines 103-121); it does not
    depend on the validation data. *)
Definition callbacks_list (output_dir : string) (config : json) : result (list callback) :=
  try patience := config_get config "early_stopping_patience" (JInt 3) in
  Ok [ ModelCheckpoint
         (path_join (path_join output_dir "checkpoints")
                    "checkpoint-{epoch:02d}-{val_loss:.2f}.h5")
         "val_loss" true 1;
       EarlyStopping "val_loss" patience 1;
       ReduceLROnPlateau "val_loss" (PyFloat "0.5") 2 1 ].

(** [history.history[key][-1]] *)
Definition history_last (h : History) (key : string) : result pyfloat :=
  match dict_lookup h key with
  | None => Raise (KeyError key)
  | Some xs => list_index xs (-1)
  end.

Definition history_len (h : History) (key : string) : result nat :=
  match dict_lookup h key with
  | None => Raise (KeyError key)
  | Some xs => Ok (List.length xs)
  end.

(** [val_data]'s truth value: [None], or the loaded records. *)
Definition data_truthy (val_data : option json) : bool :=
  match val_data with
  | None => false
  | Some v => truthy v
  end.

Definition metrics_file (output_dir : string) : string :=
  path_join output_dir "training_metrics.json".

(** [train_model] (lines 62-160). *)
Definition train_model
    (E : env) (B : backend)
    (train_data_path : string) (val_data_path : option string)
    (output_dir : string) (config : json)
  : M (dict num) :=
  train_data <- load_data E train_data_path ;;
  val_data <-
    (if path_given_and_exists E val_data_path then
       v <- load_data E (match val_data_path with Some p => p | None => "" end) ;;
       ret (Some v)
     else ret None) ;;
  vocab_size <- lift (config_get config "vocab_size" (JInt 10000)) ;;
  embedding_dim <- lift (config_get config "embedding_dim" (JInt 256)) ;;
  hidden_units <- lift (config_get config "hidden_units" (JInt 512)) ;;
  _ <- call EvCreateModel (create_model B vocab_size embedding_dim hidden_units config) ;;
  learning_rate <- lift (config_get config "learning_rate" (JFloat (PyFloat "0.001"))) ;;
  _ <- call EvCompile (model_compile B learning_rate) ;;
  cbs <- lift (callbacks_list output_dir config) ;;
  epochs <- lift (config_get config "epochs" (JInt 10)) ;;
  batch_size <- lift (config_get config "batch_size" (JInt 32)) ;;
  let fit_args := {| fit_epochs := epochs; fit_batch_size := batch_size;
                     fit_callbacks := cbs; fit_verbose := 1 |} in
  history <- call (EvFit fit_args) (model_fit B fit_args) ;;
  _ <- call (EvKerasSave (path_join output_dir "model"))
            (model_save B (path_join output_dir "model")) ;;
  loss <- lift (history_last history "loss") ;;
  accuracy <- lift (history_last history "accuracy") ;;
  n <- lift (history_len history "loss") ;;
  let metrics :=
    [ ("final_train_loss", NFloat loss);
      ("final_train_accuracy", NFloat accuracy);
      ("epochs_trained", NInt (Z.of_nat n)) ] in
  metrics <-
    (if data_truthy val_data then
       val_loss <- lift (history_last history "val_loss") ;;
       val_accuracy <- lift (history_last history "val_accuracy") ;;
       ret (dict_update metrics [("final_val_loss", NFloat val_loss);
                                 ("final_val_accuracy", NFloat val_accuracy)])
     else ret metrics) ;;
  let metrics_path := metrics_file output_dir in
  _ <- lift (open_w E metrics_path) ;;
  _ <- emit (EvWrite metrics_path (json_dump_indent2 metrics)) ;;
  ret metrics.

(** The parsed command line. *)
Record args : Type := {
  arg_train_data : string;
  arg_val_data : option string;
  arg_output_dir : string;
  arg_config : string;
}.

Definition metrics_line (metrics : dict num) : string :=
  String.append "METRICS: " (json_dumps metrics).

(** [main] (lines 163-187), after [parse_args]. *)
Definition main (E : env) (B : backend) (a : args) : M Z :=
  content <- call (EvRead (arg_config a)) (open_r E (arg_config a)) ;;
  config <- lift (json_loads E content) ;;
  metrics <- train_model E B (arg_train_data a) (arg_val_data a) (arg_output_dir a) config ;;
  _ <- emit (EvPrint (metrics_line metrics)) ;;
  ret 0%Z.

End TensorFlowTrain.

(* ===================================================================== *)
(** * Concrete environments                                               *)
(* ===================================================================== *)

Module Examples.

Definition q (s : string) : string := quoted s.

(** [{"input": i, "output": o}] as text. *)
Definition pair_text (i o : string) : string :=
  String.concat "" ["{"; q "input"; ":"; q i; ","; q "output"; ":"; q o; "}"].

(** [[{"input":"a","output":"b"}]]: one record. *)
Definition one_record : string := String.concat "" ["["; pair_text "a" "b"; "]"].

(** [[{"input":"a","output":"b"},{"input":"c","output":"d"}]] *)
Definition two_records : string :=
  String.concat "" ["["; pair_text "a" "b"; ","; pair_text "c" "d"; "]"].

(** The same two records, one per line. *)
Definition two_lines : string :=
  String.concat "" [pair_text "a" "b"; NL; pair_text "c" "d"; NL].

(** [[{"output":"b"}]]: a record without its [input] field. *)
Definition no_input_record : string :=
  String.concat "" ["[{"; q "output"; ":"; q "b"; "}]"].

(** [{"epochs": 1}] *)
Definition config_text : string := String.concat "" ["{"; q "epochs"; ": 1}"].

(** [{"epochs": 1, "max_length": 1}] *)
Definition config_len1_text : string :=
  String.concat "" ["{"; q "epochs"; ": 1, "; q "max_length"; ": 1}"].

(** The two records as [json.load] returns them. *)
Definition record_ab : json := JObj [("input", JStr "a"); ("output", JStr "b")].
Definition record_cd : json := JObj [("input", JStr "c"); ("output", JStr "d")].

Definition files : dict node :=
  [ ("config.json", File config_text);
    ("config1.json", File config_len1_text);
    ("train.json", File one_record);
    ("pairs.json", File two_records);
    ("pairs.jsonl", File two_lines);
    ("val.json", File one_record);
    ("empty_val.json", File "[]");
    ("noinput.json", File no_input_record);
    ("out", Dir) ].

(** A file system holding [files]; every path under it can be written. *)
Definition E0 : env :=
  {| lookup := dict_lookup files;
     open_w := fun _ => Ok tt;
     json_loads := JsonText.loads |}.

(** A tokenizer in the style of a sentencepiece model: one id per
    character, then the end-of-sequence id 1; padding id 0. *)
Definition toy_tokenizer : tokenizer :=
  {| tokenize := fun s => map (fun c => Z.of_nat (nat_of_ascii c)) (list_ascii_of_string s) ++ [1%Z];
     pad_token_id := 0%Z |}.

Definition toy_train_output : TrainOutput :=
  {| training_loss := NFloat (PyFloat "0.5");
     train_metrics := [ ("train_runtime", NFloat (PyFloat "1.25"));
                        ("train_samples_per_second", NFloat (PyFloat "0.8"));
                        ("train_loss", NFloat (PyFloat "0.5"));
                        ("epoch", NFloat (PyFloat "1.0")) ] |}.

(** A transformers installation on which every call succeeds. *)
Definition B_torch : PyTorchTrain.backend :=
  {| PyTorchTrain.AutoTokenizer_from_pretrained := fun _ => Ok toy_tokenizer;
     PyTorchTrain.AutoModel_from_pretrained := fun _ => Ok tt;
     PyTorchTrain.TrainingArguments_init := fun _ => Ok tt;
     PyTorchTrain.Trainer_init := fun _ => Ok tt;
     PyTorchTrain.Trainer_train := fun _ => Ok toy_train_output;
     PyTorchTrain.Trainer_save_model := fun _ => Ok tt;
     PyTorchTrain.Tokenizer_save_pretrained := fun _ => Ok tt;
     PyTorchTrain.Trainer_evaluate :=
       fun _ => Ok [("eval_loss", NFloat (PyFloat "0.4")); ("eval_runtime", NFloat (PyFloat "0.1"))] |}.

(** A keras installation on which every call succeeds, with a one-epoch
    history. *)
Definition B_keras : TensorFlowTrain.backend :=
  {| TensorFlowTrain.create_model := fun _ _ _ _ => Ok tt;
     TensorFlowTrain.model_compile := fun _ => Ok tt;
     TensorFlowTrain.model_fit :=
       fun _ => Ok [ ("loss", [PyFloat "0.5"]); ("accuracy", [PyFloat "0.75"]);
                     ("val_loss", [PyFloat "0.6"]); ("val_accuracy", [PyFloat "0.7"]) ];
     TensorFlowTrain.model_save := fun _ => Ok tt |}.

Definition torch_args (train : string) (val : option string) : PyTorchTrain.args :=
  {| PyTorchTrain.arg_model_name := "t5-small";
     PyTorchTrain.arg_train_data := train;
     PyTorchTrain.arg_val_data := val;
     PyTorchTrain.arg_output_dir := "out";
     PyTorchTrain.arg_config := "config.json" |}.

Definition keras_args (train : string) (val : option string) : TensorFlowTrain.args :=
  {| TensorFlowTrain.arg_train_data := train;
     TensorFlowTrain.arg_val_data := val;
     TensorFlowTrain.arg_output_dir := "out";
     TensorFlowTrain.arg_config := "config.json" |}.

End Examples.

(* ===================================================================== *)
(** * The contract's vocabulary                                           *)
(* ===================================================================== *)

Module Contract.

(** Events an outside observer of the job reads: the metrics file and the
    standard output. *)
Definition is_output (e : event) : bool :=
  match e with
  | EvWrite _ _ | EvPrint _ => true
  | _ => false
  end.

Definition val_path (val : option string) : string :=
  match val with Some p => p | None => "" end.

(** The records of the validation file, when the path is given, exists and
    decodes. *)
Definition validation_records (E : env) (val : option string) : option json :=
  if path_given_and_exists E val then
    match open_r E (val_path val) with
    | Ok content =>
        match PyTorchTrain.read_records E (val_path val) content with
        | Ok v => Some v
        | Raise _ => None
        end
    | Raise _ => None
    end
  else None.

Definition nonempty (v : json) : bool :=
  match py_len v with
  | Ok n => negb (Nat.eqb n 0)
  | Raise _ => false
  end.

(** The run has a validation set: the file is there and holds at least one
    record. *)
Definition has_validation (E : env) (val : option string) : bool :=
  match validation_records E val with
  | Some v => nonempty v
  | None => false
  end.

(** The three lifecycle policies that watch the validation loss. *)
Inductive lifecycle : Type :=
| BestCheckpoint
| EarlyStop
| LRDecay.

Definition callback_policy (c : callback) : lifecycle :=
  match c with
  | ModelCheckpoint _ _ _ _ => BestCheckpoint
  | EarlyStopping _ _ _ => EarlyStop
  | ReduceLROnPlateau _ _ _ _ => LRDecay
  end.

Definition callback_monitor (c : callback) : string :=
  match c with
  | ModelCheckpoint _ m _ _ => m
  | EarlyStopping m _ _ => m
  | ReduceLROnPlateau m _ _ _ => m
  end.

(** The policies a [Trainer] is asked to run: best-model tracking through
    [load_best_model_at_end] with an evaluation strategy, and whatever
    callbacks it is given. *)
Definition trainer_policies (t : Trainer) : list lifecycle :=
  (if load_best_model_at_end (tr_args t)
      && negb (String.eqb (evaluation_strategy (tr_args t)) "no")
   then [BestCheckpoint] else [])
  ++ map callback_policy (tr_callbacks t).

(** The policies [model.fit] is asked to run: its callbacks that monitor
    [val_loss]. *)
Definition fit_policies (a : FitArgs) : list lifecycle :=
  map callback_policy
      (filter (fun c => String.eqb (callback_monitor c) "val_loss") (fit_callbacks a)).

Definition policy_eqb (x y : lifecycle) : bool :=
  match x, y with
  | BestCheckpoint, BestCheckpoint | EarlyStop, EarlyStop | LRDecay, LRDecay => true
  | _, _ => false
  end.

Definition has_policy (p : lifecycle) (ps : list lifecycle) : bool :=
  existsb (policy_eqb p) ps.

(** The metric names of the pretrained variant's record. *)
Definition torch_required : list string :=
  ["train_loss"; "train_runtime"; "train_samples_per_second"; "epoch"].

(** The metric names of the from-scratch variant's record. *)
Definition keras_required : list string :=
  ["final_train_loss"; "final_train_accuracy"; "epochs_trained"].

Definition keras_validation : list string :=
  ["final_val_loss"; "final_val_accuracy"].

(** The dataset that holds one example. *)
Definition single_example (tk : tokenizer) (source target : string) (max_length : Z)
  : HumanizationDataset :=
  {| ds_tokenizer := tk;
     ds_max_length := JInt max_length;
     ds_data := JArr [JObj [("input", JStr source); ("output", JStr target)]] |}.

Definition is_print (e : event) : bool :=
  match e with
  | EvPrint _ => true
  | _ => false
  end.

(** A run that ends in an exception has written no file and printed no
    line, and the process status is not zero. *)
Definition aborts_cleanly (r : M Z) : Prop :=
  forall e, outcome r = Raise e ->
    (forall p content, ~ In (EvWrite p content) (trace r)) /\
    (forall line, ~ In (EvPrint line) (trace r)) /\
    exit_status (outcome r) <> 0%Z.

(** A run that returns has printed one line, [METRICS: {...}], and the
    process status is zero. *)
Definition reports_once (r : M Z) : Prop :=
  forall code, outcome r = Ok code ->
    (exists m, filter is_print (trace r)
               = [EvPrint (String.append "METRICS: " (json_dumps m))]) /\
    exit_status (outcome r) = 0%Z.

End Contract.
Export Contract.

(* ===================================================================== *)
(** * More concrete environments                                          *)
(* ===================================================================== *)

Module MoreExamples.

Import Examples.

(** Two records with an empty line between them. *)
Definition blank_line_between : string :=
  String.concat "" [pair_text "a" "b"; NL; NL; pair_text "c" "d"; NL].

(** [E0]'s files and: a line-delimited file with an empty line, a [.json]
    file holding the number 5, a [.json] file holding one object, and a
    configuration file holding an array. *)
Definition more_files : dict node :=
  files ++
  [ ("blank.jsonl", File blank_line_between);
    ("five.json", File "5");
    ("object.json", File (pair_text "a" "b"));
    ("list_config.json", File "[]") ].

Definition E1 : env :=
  {| lookup := dict_lookup more_files;
     open_w := fun _ => Ok tt;
     json_loads := JsonText.loads |}.

(** [B_torch], with an [evaluate()] that raises. *)
Definition B_torch_failing_evaluate : PyTorchTrain.backend :=
  {| PyTorchTrain.AutoTokenizer_from_pretrained := fun _ => Ok toy_tokenizer;
     PyTorchTrain.AutoModel_from_pretrained := fun _ => Ok tt;
     PyTorchTrain.TrainingArguments_init := fun _ => Ok tt;
     PyTorchTrain.Trainer_init := fun _ => Ok tt;
     PyTorchTrain.Trainer_train := fun _ => Ok toy_train_output;
     PyTorchTrain.Trainer_save_model := fun _ => Ok tt;
     PyTorchTrain.Tokenizer_save_pretrained := fun _ => Ok tt;
     PyTorchTrain.Trainer_evaluate := fun _ => Raise (BackendError "evaluate") |}.

(** [B_keras], with the history [fit] returns when it is given no
    validation data: training loss and accuracy only. *)
Definition B_keras_training_history : TensorFlowTrain.backend :=
  {| TensorFlowTrain.create_model := fun _ _ _ _ => Ok tt;
     TensorFlowTrain.model_compile := fun _ => Ok tt;
     TensorFlowTrain.model_fit :=
       fun _ => Ok [ ("loss", [PyFloat "0.9"; PyFloat "0.5"]);
                     ("accuracy", [PyFloat "0.6"; PyFloat "0.75"]) ];
     TensorFlowTrain.model_save := fun _ => Ok tt |}.

(** The trainer of the run of [train.json] with [val.json] under an empty
    configuration. *)
Definition trainer_with_validation : Trainer :=
  let train_ds := {| ds_tokenizer := toy_tokenizer; ds_max_length := JInt 512;
                     ds_data := JArr [record_ab] |} in
  {| tr_model := "t5-small";
     tr_args :=
       {| ta_output_dir := "out";
          num_train_epochs := JInt 10;
          per_device_train_batch_size := JInt 8;
          per_device_eval_batch_size := JInt 8;
          learning_rate := JFloat (PyFloat "5e-05");
          warmup_steps := JInt 500;
          logging_dir := "out/logs";
          logging_steps := JInt 100;
          save_steps := JInt 1000;
          eval_steps := JInt 500;
          evaluation_strategy := "steps";
          save_total_limit := JInt 3;
          load_best_model_at_end := true;
          metric_for_best_model := "loss";
          greater_is_better := false;
          fp16 := JBool false;
          dataloader_num_workers := JInt 4;
          report_to := "none" |};
     tr_train_dataset := train_ds;
     tr_eval_dataset := Some train_ds;
     tr_tokenizer := toy_tokenizer;
     tr_callbacks := [] |}.

(** The [fit] arguments of a run under an empty configuration. *)
Definition default_fit_args : FitArgs :=
  {| fit_epochs := JInt 10;
     fit_batch_size := JInt 32;
     fit_callbacks :=
       [ ModelCheckpoint "out/checkpoints/checkpoint-{epoch:02d}-{val_loss:.2f}.h5"
           "val_loss" true 1;
         EarlyStopping "val_loss" (JInt 3) 1;
         ReduceLROnPlateau "val_loss" (PyFloat "0.5") 2 1 ];
     fit_verbose := 1 |}.

End MoreExamples.

(* ===================================================================== *)
(** * Facts about runs                                                    *)
(* ===================================================================== *)

(** Case analysis on the next undecided outcome of a run: the innermost
    scrutinee that is not itself a case analysis. *)
Ltac next_outcome :=
  match goal with
  | |- context [match ?x with _ => _ end] =>
      lazymatch x with
      | context [match _ with _ => _ end] => fail
      | _ => destruct x eqn:?
      end
  end.

Ltac same_outcome :=
  repeat match goal with
    | H : Ok _ = Ok _ |- _ => injection H as H; try subst
    | H : Some _ = Some _ |- _ => injection H as H; try subst
    | H : File _ = File _ |- _ => injection H as H; try subst
    end.

Ltac walk_run :=
  repeat (next_outcome; same_outcome;
          cbn -[json_dump_indent2 json_dumps PyTorchTrain.metrics_file
                TensorFlowTrain.metrics_file endswith path_join] in *;
          try discriminate; try congruence).

Section Traces.

Lemma no_output_not_in (t : list event) :
  existsb is_output t = false ->
  (forall p content, ~ In (EvWrite p content) t) /\ (forall line, ~ In (EvPrint line) t).
Proof.
  intros H; split; intros; intros Hin;
    (assert (Hex : existsb is_output t = true)
      by (apply existsb_exists; eexists; split; [exact Hin | reflexivity]));
    congruence.
Qed.

Lemma disk_after_last_write (pre : list event) (p content : string) :
  forall disk, disk_after (pre ++ [EvWrite p content]) disk p = Some (File content).
Proof.
  induction pre as [|e pre IH]; intros disk; cbn.
  - now rewrite String.eqb_refl.
  - destruct e; apply IH.
Qed.

Lemma filter_print_quiet (t : list event) :
  existsb is_output t = false -> filter is_print t = [].
Proof.
  induction t as [|e t IH]; cbn; [reflexivity|].
  destruct e; cbn; intros H; try discriminate; auto.
Qed.

Lemma map_result_Forall2 {A B} (f : A -> result B) (xs : list A) (ys : list B) :
  Forall2 (fun x y => f x = Ok y) xs ys -> map_result f xs = Ok ys.
Proof.
  induction 1 as [|x y xs ys Hxy _ IH]; cbn; [reflexivity|].
  now rewrite Hxy, IH.
Qed.

Lemma map_result_ok_Forall2 {A B} (f : A -> result B) (xs : list A) :
  forall ys, map_result f xs = Ok ys -> Forall2 (fun x y => f x = Ok y) xs ys.
Proof.
  induction xs as [|x xs IH]; cbn; intros ys H.
  - injection H as <-. constructor.
  - destruct (f x) eqn:Hx; [|discriminate].
    destruct (map_result f xs) eqn:Hxs; [|discriminate].
    injection H as <-. constructor; auto.
Qed.

Lemma truthy_nonempty (v : json) (n : nat) :
  py_len v = Ok n -> truthy v = nonempty v.
Proof.
  unfold nonempty; destruct v; cbn; try discriminate; intros _; try reflexivity.
  now destruct s.
Qed.

End Traces.

(** ** The pretrained variant *)

Module TorchFacts.
Import PyTorchTrain.

Ltac unfold_run :=
  unfold has_validation, validation_records, nonempty in *;
  unfold main, train_model, HumanizationDataset_init, training_arguments, dataset_truthy,
    HumanizationDataset_len, read_records,
    call, bind, lift, emit, ret, outcome, trace, open_r, config_get, rbind in *.

(** A run of [train_model] that returns: its configuration is a dict, its
    trace and its record are fixed by the inputs and the library's
    answers. *)
Lemma torch_train_model_ok E B name train val out config m :
  outcome (train_model E B name train val out config) = Ok m ->
  exists d tr out_ ev,
    config = JObj d /\
    trace (train_model E B name train val out config) =
      [EvLoadTokenizer name; EvLoadModel name; EvRead train]
      ++ (if path_given_and_exists E val then [EvRead (val_path val)] else [])
      ++ [EvTrain tr; EvSaveModel out; EvSaveTokenizer out]
      ++ (if has_validation E val then [EvEvaluate] else [])
      ++ [EvWrite (metrics_file out) (json_dump_indent2 m)] /\
    m = [ ("train_loss", training_loss out_);
          ("train_runtime", dict_get (train_metrics out_) "train_runtime" (NInt 0));
          ("train_samples_per_second",
            dict_get (train_metrics out_) "train_samples_per_second" (NInt 0));
          ("epoch", dict_get (train_metrics out_) "epoch" (NInt 0)) ]
        ++ (if has_validation E val
            then [("eval_loss", dict_get ev "eval_loss" (NInt 0))] else []) /\
    tr_callbacks tr = [] /\
    num_train_epochs (tr_args tr) = dict_get d "epochs" (JInt 10) /\
    save_total_limit (tr_args tr) = dict_get d "save_total_limit" (JInt 3) /\
    eval_steps (tr_args tr) =
      (if has_validation E val then dict_get d "eval_steps" (JInt 500) else JNull) /\
    evaluation_strategy (tr_args tr) = (if has_validation E val then "steps" else "no") /\
    load_best_model_at_end (tr_args tr) = has_validation E val /\
    Trainer_train B tr = Ok out_ /\
    (has_validation E val = true -> Trainer_evaluate B tr = Ok ev).
Proof.
  unfold_run. walk_run.
  all: intros [= <-].
  all: do 4 eexists; repeat split; try reflexivity; try eassumption; try discriminate.
  all: try (intros; first [eassumption | discriminate]).
  Unshelve. all: exact [].
Qed.

(** A run of [train_model] that raises has written and printed nothing. *)
Lemma torch_train_model_raise E B name train val out config e :
  outcome (train_model E B name train val out config) = Raise e ->
  existsb is_output (trace (train_model E B name train val out config)) = false.
Proof.
  unfold_run. walk_run.
  all: try reflexivity.
Qed.

(** Without the training file there is no way through [train_model]. *)
Lemma torch_train_model_needs_data E B name train val out config :
  lookup E train = None ->
  exists e, outcome (train_model E B name train val out config) = Raise e.
Proof.
  intros Hnone. unfold_run. rewrite Hnone.
  walk_run.
  all: eexists; reflexivity.
Qed.

Lemma torch_main_ok E B a code :
  outcome (main E B a) = Ok code ->
  exists content config m,
    open_r E (arg_config a) = Ok content /\
    json_loads E content = Ok config /\
    outcome (train_model E B (arg_model_name a) (arg_train_data a) (arg_val_data a)
               (arg_output_dir a) config) = Ok m /\
    trace (main E B a) =
      EvRead (arg_config a)
      :: trace (train_model E B (arg_model_name a) (arg_train_data a) (arg_val_data a)
                  (arg_output_dir a) config)
      ++ [EvPrint (metrics_line m)] /\
    code = 0%Z.
Proof.
  unfold main, call, bind, lift, emit, ret, outcome, trace.
  destruct (open_r E (arg_config a)) as [content|] eqn:Hopen; cbn; [|discriminate].
  destruct (json_loads E content) as [config|] eqn:Hcfg; cbn; [|discriminate].
  destruct (train_model _ _ _ _ _ _ _) as [t [m|]] eqn:Hrun; cbn -[metrics_line];
    [|discriminate].
  intros [= <-]. exists content, config, m. rewrite Hrun. now repeat split.
Qed.

Lemma torch_main_raise E B a e :
  outcome (main E B a) = Raise e ->
  existsb is_output (trace (main E B a)) = false.
Proof.
  unfold main, call, bind, lift, emit, ret, outcome, trace.
  destruct (open_r E (arg_config a)) as [content|]; cbn; [|reflexivity].
  destruct (json_loads E content) as [config|]; cbn; [|reflexivity].
  pose proof (@torch_train_model_raise E B (arg_model_name a) (arg_train_data a) (arg_val_data a)
                (arg_output_dir a) config) as Hq.
  unfold outcome, trace in Hq.
  destruct (train_model _ _ _ _ _ _ _) as [t [m|e']]; cbn in *; [discriminate|].
  intros _. apply (Hq e'). reflexivity.
Qed.

Lemma torch_main_needs_data E B a :
  lookup E (arg_train_data a) = None ->
  exists e, outcome (main E B a) = Raise e.
Proof.
  intros Hnone.
  unfold main, call, bind, lift, emit, ret, outcome, trace.
  destruct (open_r E (arg_config a)) as [content|]; cbn; [|eauto].
  destruct (json_loads E content) as [config|]; cbn; [|eauto].
  destruct (@torch_train_model_needs_data E B (arg_model_name a) (arg_train_data a) (arg_val_data a)
              (arg_output_dir a) config Hnone) as [e He].
  unfold outcome in He.
  destruct (train_model _ _ _ _ _ _ _) as [t r]; cbn in *. subst r.
  exists e. reflexivity.
Qed.

End TorchFacts.

(** ** The from-scratch variant *)

Module KerasFacts.
Import TensorFlowTrain.

Ltac unfold_run :=
  unfold has_validation, validation_records, PyTorchTrain.read_records in *;
  unfold main, train_model, load_data, callbacks_list, data_truthy,
    history_last, history_len,
    call, bind, lift, emit, ret, outcome, trace, open_r, config_get, rbind in *.

Ltac settle_truth :=
  repeat match goal with
    | H : py_len ?v = Ok ?n, T : truthy ?v = _ |- _ =>
        rewrite (truthy_nonempty v H) in T
    end;
  unfold nonempty in *;
  repeat match goal with
    | H : py_len ?v = Ok ?n |- _ => rewrite H in *; clear H
    end.

(** A run of [train_model] that returns. *)
Lemma keras_train_model_ok E B train val out config m :
  outcome (train_model E B train val out config) = Ok m ->
  exists d fa h,
    config = JObj d /\
    trace (train_model E B train val out config) =
      [EvRead train]
      ++ (if path_given_and_exists E val then [EvRead (val_path val)] else [])
      ++ [EvCreateModel; EvCompile; EvFit fa; EvKerasSave (path_join out "model");
          EvWrite (metrics_file out) (json_dump_indent2 m)] /\
    dict_keys m = keras_required ++ (if has_validation E val then keras_validation else []) /\
    fit_epochs fa = dict_get d "epochs" (JInt 10) /\
    fit_callbacks fa =
      [ ModelCheckpoint
          (path_join (path_join out "checkpoints") "checkpoint-{epoch:02d}-{val_loss:.2f}.h5")
          "val_loss" true 1;
        EarlyStopping "val_loss" (dict_get d "early_stopping_patience" (JInt 3)) 1;
        ReduceLROnPlateau "val_loss" (PyFloat "0.5") 2 1 ] /\
    model_fit B fa = Ok h.
Proof.
  unfold_run. walk_run.
  all: intros [= <-].
  all: settle_truth; try congruence.
  all: do 3 eexists; repeat split; try reflexivity; try eassumption; try discriminate.
Qed.

Lemma keras_train_model_raise E B train val out config e :
  outcome (train_model E B train val out config) = Raise e ->
  existsb is_output (trace (train_model E B train val out config)) = false.
Proof.
  unfold_run. walk_run.
  all: try reflexivity.
Qed.

Lemma keras_train_model_needs_data E B train val out config :
  lookup E train = None ->
  exists e, outcome (train_model E B train val out config) = Raise e.
Proof.
  intros Hnone. unfold_run. rewrite Hnone.
  walk_run.
  all: eexists; reflexivity.
Qed.

Lemma keras_main_ok E B a code :
  outcome (main E B a) = Ok code ->
  exists content config m,
    open_r E (arg_config a) = Ok content /\
    json_loads E content = Ok config /\
    outcome (train_model E B (arg_train_data a) (arg_val_data a)
               (arg_output_dir a) config) = Ok m /\
    trace (main E B a) =
      EvRead (arg_config a)
      :: trace (train_model E B (arg_train_data a) (arg_val_data a)
                  (arg_output_dir a) config)
      ++ [EvPrint (metrics_line m)] /\
    code = 0%Z.
Proof.
  unfold main, call, bind, lift, emit, ret, outcome, trace.
  destruct (open_r E (arg_config a)) as [content|] eqn:Hopen; cbn; [|discriminate].
  destruct (json_loads E content) as [config|] eqn:Hcfg; cbn; [|discriminate].
  destruct (train_model _ _ _ _ _ _) as [t [m|]] eqn:Hrun; cbn -[metrics_line];
    [|discriminate].
  intros [= <-]. exists content, config, m. rewrite Hrun. now repeat split.
Qed.

Lemma keras_main_raise E B a e :
  outcome (main E B a) = Raise e ->
  existsb is_output (trace (main E B a)) = false.
Proof.
  unfold main, call, bind, lift, emit, ret, outcome, trace.
  destruct (open_r E (arg_config a)) as [content|]; cbn; [|reflexivity].
  destruct (json_loads E content) as [config|]; cbn; [|reflexivity].
  pose proof (@keras_train_model_raise E B (arg_train_data a) (arg_val_data a)
                (arg_output_dir a) config) as Hq.
  unfold outcome, trace in Hq.
  destruct (train_model _ _ _ _ _ _) as [t [m|e']]; cbn in *; [discriminate|].
  intros _. apply (Hq e'). reflexivity.
Qed.

Lemma keras_main_needs_data E B a :
  lookup E (arg_train_data a) = None ->
  exists e, outcome (main E B a) = Raise e.
Proof.
  intros Hnone.
  unfold main, call, bind, lift, emit, ret, outcome, trace.
  destruct (open_r E (arg_config a)) as [content|]; cbn; [|eauto].
  destruct (json_loads E content) as [config|]; cbn; [|eauto].
  destruct (@keras_train_model_needs_data E B (arg_train_data a) (arg_val_data a)
              (arg_output_dir a) config Hnone) as [e He].
  unfold outcome in He.
  destruct (train_model _ _ _ _ _ _) as [t r]; cbn in *. subst r.
  exists e. reflexivity.
Qed.

End KerasFacts.

(** ** What the libraries are asked to do *)

Ltac find_event Hin :=
  cbn in Hin;
  repeat (destruct Hin as [Hin|Hin]; try discriminate);
  try contradiction.

(** In every run of the pretrained variant in which training returned,
    the [Trainer] was built from these arguments. *)
Lemma torch_train_event E B name train val out config t :
  In (EvTrain t) (trace (PyTorchTrain.train_model E B name train val out config)) ->
  exists d,
    config = JObj d /\
    tr_callbacks t = [] /\
    num_train_epochs (tr_args t) = dict_get d "epochs" (JInt 10) /\
    save_total_limit (tr_args t) = dict_get d "save_total_limit" (JInt 3) /\
    eval_steps (tr_args t) =
      (if has_validation E val then dict_get d "eval_steps" (JInt 500) else JNull) /\
    evaluation_strategy (tr_args t) = (if has_validation E val then "steps" else "no") /\
    load_best_model_at_end (tr_args t) = has_validation E val.
Proof.
  TorchFacts.unfold_run. walk_run.
  all: intros Hin; find_event Hin.
  all: injection Hin as <-; eexists; repeat split; reflexivity.
Qed.

(** In every run of the from-scratch variant in which [fit] returned, it
    was called with these arguments, validation set or not. *)
Lemma keras_fit_event E B train val out config fa :
  In (EvFit fa) (trace (TensorFlowTrain.train_model E B train val out config)) ->
  exists d,
    config = JObj d /\
    fit_epochs fa = dict_get d "epochs" (JInt 10) /\
    fit_batch_size fa = dict_get d "batch_size" (JInt 32) /\
    fit_callbacks fa =
      [ ModelCheckpoint
          (path_join (path_join out "checkpoints") "checkpoint-{epoch:02d}-{val_loss:.2f}.h5")
          "val_loss" true 1;
        EarlyStopping "val_loss" (dict_get d "early_stopping_patience" (JInt 3)) 1;
        ReduceLROnPlateau "val_loss" (PyFloat "0.5") 2 1 ].
Proof.
  KerasFacts.unfold_run. walk_run.
  all: intros Hin; find_event Hin.
  all: injection Hin as <-; eexists; repeat split; reflexivity.
Qed.

(* ===================================================================== *)
(** * The process boundary: C1, C10, C8                                   *)
(* ===================================================================== *)

Section ProcessBoundary.

Variable E : env.

Lemma torch_prints_one_line B a code :
  outcome (PyTorchTrain.main E B a) = Ok code ->
  exists pre m,
    outcome (PyTorchTrain.train_model E B (PyTorchTrain.arg_model_name a)
               (PyTorchTrain.arg_train_data a) (PyTorchTrain.arg_val_data a)
               (PyTorchTrain.arg_output_dir a) (JObj pre)) = Ok m /\
    exists before,
      trace (PyTorchTrain.main E B a) =
        before ++ [EvWrite (PyTorchTrain.metrics_file (PyTorchTrain.arg_output_dir a))
                           (json_dump_indent2 m);
                   EvPrint (PyTorchTrain.metrics_line m)] /\
      existsb is_output before = false.
Proof.
  intros Hok.
  destruct (@TorchFacts.torch_main_ok _ _ _ _ Hok) as (content & config & m & _ & _ & Hrun & Htr & _).
  destruct (@TorchFacts.torch_train_model_ok _ _ _ _ _ _ _ _ Hrun)
    as (d & tr & out_ & ev & -> & Ht & _).
  exists d, m. split; [exact Hrun|].
  rewrite Htr, Ht.
  exists (EvRead (PyTorchTrain.arg_config a)
          :: [EvLoadTokenizer (PyTorchTrain.arg_model_name a);
              EvLoadModel (PyTorchTrain.arg_model_name a);
              EvRead (PyTorchTrain.arg_train_data a)]
          ++ (if path_given_and_exists E (PyTorchTrain.arg_val_data a)
              then [EvRead (val_path (PyTorchTrain.arg_val_data a))] else [])
          ++ [EvTrain tr; EvSaveModel (PyTorchTrain.arg_output_dir a);
              EvSaveTokenizer (PyTorchTrain.arg_output_dir a)]
          ++ (if has_validation E (PyTorchTrain.arg_val_data a) then [EvEvaluate] else [])).
  split.
  - destruct (path_given_and_exists E _), (has_validation E _); reflexivity.
  - destruct (path_given_and_exists E _), (has_validation E _); reflexivity.
Qed.

Lemma keras_prints_one_line B a code :
  outcome (TensorFlowTrain.main E B a) = Ok code ->
  exists m before,
    trace (TensorFlowTrain.main E B a) =
      before ++ [EvWrite (TensorFlowTrain.metrics_file (TensorFlowTrain.arg_output_dir a))
                         (json_dump_indent2 m);
                 EvPrint (TensorFlowTrain.metrics_line m)] /\
    existsb is_output before = false.
Proof.
  intros Hok.
  destruct (@KerasFacts.keras_main_ok _ _ _ _ Hok) as (content & config & m & _ & _ & Hrun & Htr & _).
  destruct (@KerasFacts.keras_train_model_ok _ _ _ _ _ _ _ Hrun) as (d & fa & h & -> & Ht & _).
  exists m. rewrite Htr, Ht.
  exists (EvRead (TensorFlowTrain.arg_config a)
          :: [EvRead (TensorFlowTrain.arg_train_data a)]
          ++ (if path_given_and_exists E (TensorFlowTrain.arg_val_data a)
              then [EvRead (val_path (TensorFlowTrain.arg_val_data a))] else [])
          ++ [EvCreateModel; EvCompile; EvFit fa;
              EvKerasSave (path_join (TensorFlowTrain.arg_output_dir a) "model")]).
  split.
  - destruct (path_given_and_exists E _); reflexivity.
  - destruct (path_given_and_exists E _); reflexivity.
Qed.

Lemma one_line_filter (before : list event) (w p : event) :
  existsb is_output before = false ->
  is_print w = false -> is_print p = true ->
  filter is_print (before ++ [w; p]) = [p].
Proof.
  intros Hq Hw Hp. rewrite filter_app, (@filter_print_quiet _ Hq). cbn.
  now rewrite Hw, Hp.
Qed.

(** C1. A run that meets a fatal error (a missing training file among
    them) writes no file, prints no line and ends with a non-zero status;
    a run that completes prints exactly one line, [METRICS: {...}], and
    ends with status zero.  Both scripts. *)
Theorem C1_abort_is_silent_success_prints_once :
  (forall B a,
      (lookup E (PyTorchTrain.arg_train_data a) = None ->
         exists e, outcome (PyTorchTrain.main E B a) = Raise e)
      /\ aborts_cleanly (PyTorchTrain.main E B a)
      /\ reports_once (PyTorchTrain.main E B a))
  /\
  (forall B a,
      (lookup E (TensorFlowTrain.arg_train_data a) = None ->
         exists e, outcome (TensorFlowTrain.main E B a) = Raise e)
      /\ aborts_cleanly (TensorFlowTrain.main E B a)
      /\ reports_once (TensorFlowTrain.main E B a)).
Proof.
  split; intros B a; (split; [|split]).
  - apply TorchFacts.torch_main_needs_data.
  - intros e He.
    destruct (@no_output_not_in _ (@TorchFacts.torch_main_raise _ _ _ _ He)) as [Hw Hp].
    repeat split; auto. rewrite He. discriminate.
  - intros code Hok.
    destruct (@torch_prints_one_line _ _ _ Hok) as (d & m & _ & before & Ht & Hq).
    destruct (@TorchFacts.torch_main_ok _ _ _ _ Hok) as (_ & _ & _ & _ & _ & _ & _ & ->).
    split; [|now rewrite Hok].
    exists m. rewrite Ht. now apply one_line_filter.
  - apply KerasFacts.keras_main_needs_data.
  - intros e He.
    destruct (@no_output_not_in _ (@KerasFacts.keras_main_raise _ _ _ _ He)) as [Hw Hp].
    repeat split; auto. rewrite He. discriminate.
  - intros code Hok.
    destruct (@keras_prints_one_line _ _ _ Hok) as (m & before & Ht & Hq).
    destruct (@KerasFacts.keras_main_ok _ _ _ _ Hok) as (_ & _ & _ & _ & _ & _ & _ & ->).
    split; [|now rewrite Hok].
    exists m. rewrite Ht. now apply one_line_filter.
Qed.

(** C10. In a run that completes, the record is written to
    [<output_dir>/training_metrics.json] before the [METRICS:] line is
    printed, nothing is printed before it, and when the line appears the
    file on disk holds that same record.  Both scripts. *)
Theorem C10_metrics_file_precedes_metrics_line :
  (forall B a code,
      outcome (PyTorchTrain.main E B a) = Ok code ->
      exists before m,
        let file := path_join (PyTorchTrain.arg_output_dir a) "training_metrics.json" in
        trace (PyTorchTrain.main E B a) =
          before ++ [EvWrite file (json_dump_indent2 m);
                     EvPrint (String.append "METRICS: " (json_dumps m))]
        /\ (forall line, ~ In (EvPrint line) before)
        /\ disk_after (before ++ [EvWrite file (json_dump_indent2 m)]) (lookup E) file
           = Some (File (json_dump_indent2 m)))
  /\
  (forall B a code,
      outcome (TensorFlowTrain.main E B a) = Ok code ->
      exists before m,
        let file := path_join (TensorFlowTrain.arg_output_dir a) "training_metrics.json" in
        trace (TensorFlowTrain.main E B a) =
          before ++ [EvWrite file (json_dump_indent2 m);
                     EvPrint (String.append "METRICS: " (json_dumps m))]
        /\ (forall line, ~ In (EvPrint line) before)
        /\ disk_after (before ++ [EvWrite file (json_dump_indent2 m)]) (lookup E) file
           = Some (File (json_dump_indent2 m))).
Proof.
  split; intros B a code Hok.
  - destruct (@torch_prints_one_line _ _ _ Hok) as (d & m & _ & before & Ht & Hq).
    exists before, m. cbv zeta. split; [exact Ht|]. split.
    + apply no_output_not_in, Hq.
    + apply disk_after_last_write.
  - destruct (@keras_prints_one_line _ _ _ Hok) as (m & before & Ht & Hq).
    exists before, m. cbv zeta. split; [exact Ht|]. split.
    + apply no_output_not_in, Hq.
    + apply disk_after_last_write.
Qed.

(** C8 (as amended). In a run of the pretrained variant that completes,
    the final save (model, then tokenizer) comes straight after training;
    the final evaluation pass, when there is a validation set, comes after
    the save, and the metrics file and the [METRICS:] line come last.  In
    the from-scratch variant the save comes straight after [fit] and is
    followed by the metrics file and the line. *)
Theorem C8_save_follows_training_then_evaluation :
  (forall B a code,
      outcome (PyTorchTrain.main E B a) = Ok code ->
      exists before t m,
        let out := PyTorchTrain.arg_output_dir a in
        trace (PyTorchTrain.main E B a) =
          before
          ++ [EvTrain t; EvSaveModel out; EvSaveTokenizer out]
          ++ (if has_validation E (PyTorchTrain.arg_val_data a) then [EvEvaluate] else [])
          ++ [EvWrite (PyTorchTrain.metrics_file out) (json_dump_indent2 m);
              EvPrint (PyTorchTrain.metrics_line m)])
  /\
  (forall B a code,
      outcome (TensorFlowTrain.main E B a) = Ok code ->
      exists before fa m,
        let out := TensorFlowTrain.arg_output_dir a in
        trace (TensorFlowTrain.main E B a) =
          before
          ++ [EvFit fa; EvKerasSave (path_join out "model");
              EvWrite (TensorFlowTrain.metrics_file out) (json_dump_indent2 m);
              EvPrint (TensorFlowTrain.metrics_line m)]).
Proof.
  split; intros B a code Hok.
  - destruct (@TorchFacts.torch_main_ok _ _ _ _ Hok) as (content & config & m & _ & _ & Hrun & Htr & _).
    destruct (@TorchFacts.torch_train_model_ok _ _ _ _ _ _ _ _ Hrun)
      as (d & tr & out_ & ev & -> & Ht & _).
    exists (EvRead (PyTorchTrain.arg_config a)
            :: [EvLoadTokenizer (PyTorchTrain.arg_model_name a);
                EvLoadModel (PyTorchTrain.arg_model_name a);
                EvRead (PyTorchTrain.arg_train_data a)]
            ++ (if path_given_and_exists E (PyTorchTrain.arg_val_data a)
                then [EvRead (val_path (PyTorchTrain.arg_val_data a))] else [])), tr, m.
    cbv zeta. rewrite Htr, Ht.
    destruct (path_given_and_exists E _), (has_validation E _); reflexivity.
  - destruct (@KerasFacts.keras_main_ok _ _ _ _ Hok) as (content & config & m & _ & _ & Hrun & Htr & _).
    destruct (@KerasFacts.keras_train_model_ok _ _ _ _ _ _ _ Hrun) as (d & fa & h & -> & Ht & _).
    exists (EvRead (TensorFlowTrain.arg_config a)
            :: [EvRead (TensorFlowTrain.arg_train_data a)]
            ++ (if path_given_and_exists E (TensorFlowTrain.arg_val_data a)
                then [EvRead (val_path (TensorFlowTrain.arg_val_data a))] else [])
            ++ [EvCreateModel; EvCompile]), fa, m.
    cbv zeta. rewrite Htr, Ht.
    destruct (path_given_and_exists E _); reflexivity.
Qed.

End ProcessBoundary.

(* ===================================================================== *)
(** * Loading and encoding: C5, C2, C6                                    *)
(* ===================================================================== *)

Section Loading.

Variable E : env.

Lemma list_index_nth {A} (xs : list A) (i : nat) (x : A) :
  nth_error xs i = Some x -> list_index xs (Z.of_nat i) = Ok x.
Proof.
  intros Hnth. unfold list_index.
  assert (Hlt : (i < List.length xs)%nat) by (apply nth_error_Some; congruence).
  replace (Z.of_nat i <? 0)%Z with false by (symmetry; apply Z.ltb_ge; lia).
  replace ((0 <=? Z.of_nat i) && (Z.of_nat i <? Z.of_nat (List.length xs)))%Z with true
    by (symmetry; apply andb_true_iff; split; [apply Z.leb_le | apply Z.ltb_lt]; lia).
  now rewrite Nat2Z.id, Hnth.
Qed.

(** Both loaders, once the file is there: decode by extension, take the
    length for the log line, return the records untouched. *)
Lemma loaders_unfold (tk : tokenizer) (max_length : json) (path content : string) :
  lookup E path = Some (File content) ->
  PyTorchTrain.HumanizationDataset_init E path tk max_length =
    ([EvRead path],
     try data := PyTorchTrain.read_records E path content in
     try _ := py_len data in
     Ok {| ds_tokenizer := tk; ds_max_length := max_length; ds_data := data |})
  /\ TensorFlowTrain.load_data E path =
    ([EvRead path],
     try data := PyTorchTrain.read_records E path content in
     try _ := py_len data in
     Ok data).
Proof.
  intros Hfile.
  unfold PyTorchTrain.HumanizationDataset_init, TensorFlowTrain.load_data,
    PyTorchTrain.read_records, call, bind, lift, emit, ret, open_r, rbind.
  rewrite Hfile. cbn.
  split.
  - destruct (endswith path ".json").
    + destruct (json_loads E content) as [v|]; cbn; [|reflexivity].
      destruct (py_len v); reflexivity.
    + destruct (map_result (json_loads E) (readlines content)); reflexivity.
  - destruct (endswith path ".json"); cbn.
    + destruct (json_loads E content) as [v|]; cbn; [|reflexivity].
      destruct (py_len v); reflexivity.
    + destruct (map_result (json_loads E) (readlines content)); reflexivity.
Qed.

(** C5. The format is chosen by the path: a path that ends in [.json] is
    decoded as one document, any other path line by line, one document per
    line.  When the document is an array of records, or every line decodes
    to a record, the loaded sequence is those records, in the file's order
    and as many as the file has.  Both loaders. *)
Theorem C5_format_by_extension
    (tk : tokenizer) (max_length : json) (path content : string) :
  lookup E path = Some (File content) ->
  (endswith path ".json" = true ->
     PyTorchTrain.read_records E path content = json_loads E content
     /\ forall rs, json_loads E content = Ok (JArr rs) ->
          outcome (PyTorchTrain.HumanizationDataset_init E path tk max_length)
            = Ok {| ds_tokenizer := tk; ds_max_length := max_length; ds_data := JArr rs |}
          /\ outcome (TensorFlowTrain.load_data E path) = Ok (JArr rs))
  /\
  (endswith path ".json" = false ->
     PyTorchTrain.read_records E path content
       = (try rs := map_result (json_loads E) (readlines content) in Ok (JArr rs))
     /\ forall rs,
          Forall2 (fun line r => json_loads E line = Ok r) (readlines content) rs ->
          outcome (PyTorchTrain.HumanizationDataset_init E path tk max_length)
            = Ok {| ds_tokenizer := tk; ds_max_length := max_length; ds_data := JArr rs |}
          /\ outcome (TensorFlowTrain.load_data E path) = Ok (JArr rs)
          /\ List.length rs = List.length (readlines content)).
Proof.
  intros Hfile.
  destruct (@loaders_unfold tk max_length path content Hfile) as [Hinit Hload].
  rewrite Hinit, Hload. unfold PyTorchTrain.read_records, outcome.
  split; intros ->; (split; [reflexivity|]); intros rs Hrs; cbn.
  - now rewrite Hrs.
  - rewrite (@map_result_Forall2 _ _ _ _ _ Hrs). cbn.
    repeat split. symmetry. eapply Forall2_length; eauto.
Qed.

(** C2 (as amended). Loading does not look inside the records: a file
    whose records lack [input] or [output] loads, every record kept, in
    both scripts.  In the pretrained variant the missing field shows when
    the record is fetched: [__getitem__] raises [KeyError], for [input]
    first, for [output] when only that one is missing. *)
Theorem C2_missing_field_raises_at_getitem
    (tk : tokenizer) (max_length : json) (path content : string) (rs : list json) :
  lookup E path = Some (File content) ->
  PyTorchTrain.read_records E path content = Ok (JArr rs) ->
  let ds := {| ds_tokenizer := tk; ds_max_length := max_length; ds_data := JArr rs |} in
  outcome (PyTorchTrain.HumanizationDataset_init E path tk max_length) = Ok ds
  /\ outcome (TensorFlowTrain.load_data E path) = Ok (JArr rs)
  /\ forall (i : nat) (d : dict json),
       nth_error rs i = Some (JObj d) ->
       (dict_lookup d "input" = None ->
          PyTorchTrain.HumanizationDataset_getitem ds (Z.of_nat i)
            = Raise (KeyError "input"))
       /\ (dict_lookup d "input" <> None -> dict_lookup d "output" = None ->
          PyTorchTrain.HumanizationDataset_getitem ds (Z.of_nat i)
            = Raise (KeyError "output")).
Proof.
  intros Hfile Hrecords ds.
  destruct (@loaders_unfold tk max_length path content Hfile) as [Hinit Hload].
  rewrite Hinit, Hload, Hrecords. cbn. repeat split.
  - intros Hin. unfold PyTorchTrain.HumanizationDataset_getitem. cbn.
    rewrite (@list_index_nth _ _ _ _ H). cbn. now rewrite Hin.
  - intros Hin Hout. unfold PyTorchTrain.HumanizationDataset_getitem. cbn.
    rewrite (@list_index_nth _ _ _ _ H). cbn.
    destruct (dict_lookup d "input"); [|congruence]. cbn. now rewrite Hout.
Qed.

End Loading.

Section Encoding.

Variable tk : tokenizer.

Lemma padded_length (ids : list Z) (n : nat) :
  List.length (firstn n ids ++ repeat (pad_token_id tk) (n - List.length (firstn n ids))) = n.
Proof. rewrite length_app, repeat_length, length_firstn. lia. Qed.

Lemma mask_length (ids : list Z) (n : nat) :
  List.length (repeat 1%Z (List.length (firstn n ids))
               ++ repeat 0%Z (n - List.length (firstn n ids))) = n.
Proof. rewrite length_app, !repeat_length, length_firstn. lia. Qed.

Lemma squeeze_row (row : list Z) :
  List.length row <> 1%nat -> squeeze (T2 [row]) = T1 row.
Proof. destruct row as [|x [|y row]]; cbn; congruence. Qed.

(** For every length but 1, the encoded item is three rank-1 tensors of
    exactly that length. *)
Lemma getitem_lengths (source target : string) (L : Z) :
  (0 <= L)%Z -> L <> 1%Z ->
  exists ids mask lab,
    PyTorchTrain.HumanizationDataset_getitem (single_example tk source target L) 0
      = Ok {| PyTorchTrain.input_ids := T1 ids;
              PyTorchTrain.attention_mask := T1 mask;
              PyTorchTrain.labels := T1 lab |}
    /\ List.length ids = Z.to_nat L
    /\ List.length mask = Z.to_nat L
    /\ List.length lab = Z.to_nat L.
Proof.
  intros Hpos Hne.
  assert (Hn : Z.to_nat L <> 1%nat) by lia.
  unfold PyTorchTrain.HumanizationDataset_getitem, single_example.
  cbn -[squeeze tokenizer_call]. unfold tokenizer_call.
  replace (L <? 0)%Z with false by (symmetry; apply Z.ltb_ge; lia).
  cbn -[squeeze firstn repeat Z.to_nat].
  rewrite !squeeze_row by (rewrite ?padded_length, ?mask_length; exact Hn).
  do 3 eexists. split; [reflexivity|].
  now rewrite !padded_length, mask_length.
Qed.

(** Encoding is a function of the example, the tokenizer and the length. *)
Lemma getitem_deterministic (ds1 ds2 : HumanizationDataset) (i : Z) :
  ds1 = ds2 ->
  PyTorchTrain.HumanizationDataset_getitem ds1 i = PyTorchTrain.HumanizationDataset_getitem ds2 i.
Proof. now intros ->. Qed.

(** C6, at [max_length = 1]. The tokenizer returns tensors of shape
    [(1, 1)]; [squeeze()] removes both dimensions, so the three items are
    rank-0 tensors, which have no length, for every tokenizer and every
    example. *)
Theorem C6_max_length_one_gives_rank0 (source target : string) :
  exists x m y,
    PyTorchTrain.HumanizationDataset_getitem (single_example tk source target 1) 0
      = Ok {| PyTorchTrain.input_ids := T0 x;
              PyTorchTrain.attention_mask := T0 m;
              PyTorchTrain.labels := T0 y |}
    /\ tensor_len (T0 x) = Raise TypeError
    /\ tensor_len (T0 m) = Raise TypeError
    /\ tensor_len (T0 y) = Raise TypeError.
Proof.
  unfold PyTorchTrain.HumanizationDataset_getitem, single_example, tokenizer_call. cbn.
  destruct (tokenize tk source), (tokenize tk target); cbn;
    do 3 eexists; (split; [reflexivity|]); repeat split.
Qed.

End Encoding.

(** The failing input run end to end: the configuration asks for
    [max_length] 1, the one-record file loads, and the item fetched from it
    is made of rank-0 tensors. *)
Example max_length_one_item :
  config_get (JObj [("epochs", JInt 1); ("max_length", JInt 1)]) "max_length" (JInt 512)
    = Ok (JInt 1)
  /\ JsonText.loads Examples.config_len1_text
      = Ok (JObj [("epochs", JInt 1); ("max_length", JInt 1)])
  /\ outcome (PyTorchTrain.HumanizationDataset_init Examples.E0 "train.json"
                Examples.toy_tokenizer (JInt 1))
      = Ok (single_example Examples.toy_tokenizer "a" "b" 1)
  /\ PyTorchTrain.HumanizationDataset_getitem
        (single_example Examples.toy_tokenizer "a" "b" 1) 0
      = Ok {| PyTorchTrain.input_ids := T0 97;
              PyTorchTrain.attention_mask := T0 1;
              PyTorchTrain.labels := T0 98 |}.
Proof. repeat split. Qed.

(* ===================================================================== *)
(** * The metrics record and the lifecycle policies: C3, C7, C4           *)
(* ===================================================================== *)

Section Records.

Variable E : env.

Lemma no_validation_without_path (val : option string) :
  path_given_and_exists E val = false -> has_validation E val = false.
Proof. unfold has_validation, validation_records. now intros ->. Qed.

Lemma torch_keys B name train val out config m :
  outcome (PyTorchTrain.train_model E B name train val out config) = Ok m ->
  dict_keys m = torch_required ++ (if has_validation E val then ["eval_loss"] else []).
Proof.
  intros Hrun.
  destruct (@TorchFacts.torch_train_model_ok _ _ _ _ _ _ _ _ Hrun)
    as (d & tr & out_ & ev & _ & _ & -> & _).
  now destruct (has_validation E val).
Qed.

Lemma keras_keys B train val out config m :
  outcome (TensorFlowTrain.train_model E B train val out config) = Ok m ->
  dict_keys m = keras_required ++ (if has_validation E val then keras_validation else []).
Proof.
  intros Hrun.
  now destruct (@KerasFacts.keras_train_model_ok _ _ _ _ _ _ _ Hrun) as (d & fa & h & _ & _ & -> & _).
Qed.


(** C3 (as amended). The record of the pretrained variant holds
    [eval_loss] exactly when the validation path is given, exists and its
    file holds at least one record; it never holds [eval_accuracy]; with no
    path or no file it holds no [eval_*] key.  The record of the
    from-scratch variant never holds an [eval_*] key: under the same
    condition it holds [final_val_loss] and [final_val_accuracy]. *)
Theorem C3_eval_loss_iff_nonempty_validation :
  (forall B name train val out config m,
      outcome (PyTorchTrain.train_model E B name train val out config) = Ok m ->
      dict_keys m = torch_required ++ (if has_validation E val then ["eval_loss"] else [])
      /\ (path_given_and_exists E val = false ->
            forall k, In k (dict_keys m) -> startswith k "eval_" = false))
  /\
  (forall B train val out config m,
      outcome (TensorFlowTrain.train_model E B train val out config) = Ok m ->
      dict_keys m = keras_required ++ (if has_validation E val then keras_validation else [])
      /\ forall k, In k (dict_keys m) -> startswith k "eval_" = false).
Proof.
  split.
  - intros B name train val out config m Hrun.
    pose proof (torch_keys _ _ _ _ _ _ Hrun) as Hkeys.
    split; [exact Hkeys|].
    intros Hno k. rewrite Hkeys, (no_validation_without_path _ Hno). cbn.
    intuition (subst; reflexivity).
  - intros B train val out config m Hrun.
    pose proof (keras_keys _ _ _ _ _ Hrun) as Hkeys.
    split; [exact Hkeys|].
    intros k. rewrite Hkeys.
    destruct (has_validation E val); cbn; intuition (subst; reflexivity).
Qed.


(** C4 (as amended). Pretrained variant: whenever training returns, the
    trainer was given the configured epoch count, no callbacks, and
    validation-driven settings exactly when there is a validation set
    (strategy [steps], best-model tracking; otherwise strategy [no], no
    [eval_steps], no tracking); it is never given early stopping or
    learning-rate decay on the validation loss.  From-scratch variant:
    whenever [fit] returns, it was given the configured epoch count and all
    three [val_loss] callbacks, with or without a validation set. *)
Theorem C4_policies_by_variant :
  (forall B name train val out config t,
      In (EvTrain t) (trace (PyTorchTrain.train_model E B name train val out config)) ->
      config_get config "epochs" (JInt 10) = Ok (num_train_epochs (tr_args t))
      /\ trainer_policies t = (if has_validation E val then [BestCheckpoint] else [])
      /\ evaluation_strategy (tr_args t) = (if has_validation E val then "steps" else "no")
      /\ (has_validation E val = false -> eval_steps (tr_args t) = JNull))
  /\
  (forall B train val out config fa,
      In (EvFit fa) (trace (TensorFlowTrain.train_model E B train val out config)) ->
      config_get config "epochs" (JInt 10) = Ok (fit_epochs fa)
      /\ fit_policies fa = [BestCheckpoint; EarlyStop; LRDecay]).
Proof.
  split.
  - intros B name train val out config t Hin.
    destruct (torch_train_event _ _ _ _ _ _ _ _ Hin)
      as (d & -> & Hcb & Hep & _ & Hes & Hst & Hbest).
    unfold trainer_policies. rewrite Hcb, Hst, Hbest, Hep, Hes.
    destruct (has_validation E val); cbn; repeat split; congruence.
  - intros B train val out config fa Hin.
    destruct (keras_fit_event _ _ _ _ _ _ _ Hin) as (d & -> & Hep & _ & Hcb).
    unfold fit_policies. rewrite Hcb, Hep. now cbn.
Qed.

End Records.

(* ===================================================================== *)
(** * Concrete runs                                                       *)
(* ===================================================================== *)

Section ConcreteRuns.

Import Examples.

(** The one-record scenario, no validation file: the run completes, the
    file is written, one line is printed; with the training file missing
    the run stops before writing or printing. *)
Lemma C1_witness :
  (exists e, outcome (PyTorchTrain.main E0 B_torch (torch_args "missing.json" None)) = Raise e)
  /\ aborts_cleanly (PyTorchTrain.main E0 B_torch (torch_args "missing.json" None))
  /\ reports_once (PyTorchTrain.main E0 B_torch (torch_args "train.json" None))
  /\ aborts_cleanly (TensorFlowTrain.main E0 B_keras (keras_args "missing.json" None))
  /\ reports_once (TensorFlowTrain.main E0 B_keras (keras_args "train.json" None)).
Proof.
  destruct (C1_abort_is_silent_success_prints_once E0) as [HT HK].
  split; [apply (proj1 (HT B_torch (torch_args "missing.json" None))); reflexivity|].
  split; [apply (HT B_torch (torch_args "missing.json" None))|].
  split; [apply (HT B_torch (torch_args "train.json" None))|].
  split; [apply (HK B_keras (keras_args "missing.json" None))
         |apply (HK B_keras (keras_args "train.json" None))].
Defined.

Lemma C10_witness :
  exists before m,
    trace (PyTorchTrain.main E0 B_torch (torch_args "train.json" (Some "val.json"))) =
      before ++ [EvWrite "out/training_metrics.json" (json_dump_indent2 m);
                 EvPrint (String.append "METRICS: " (json_dumps m))]
    /\ (forall line, ~ In (EvPrint line) before)
    /\ disk_after (before ++ [EvWrite "out/training_metrics.json" (json_dump_indent2 m)])
         (lookup E0) "out/training_metrics.json"
       = Some (File (json_dump_indent2 m)).
Proof.
  apply (proj1 (C10_metrics_file_precedes_metrics_line E0)
           B_torch (torch_args "train.json" (Some "val.json")) 0%Z).
  reflexivity.
Defined.

(** A run with a validation set: the evaluation pass comes after the
    save, and the metrics file and the line come after both. *)
Lemma C8_counterexample :
  let m := [ ("train_loss", NFloat (PyFloat "0.5"));
             ("train_runtime", NFloat (PyFloat "1.25"));
             ("train_samples_per_second", NFloat (PyFloat "0.8"));
             ("epoch", NFloat (PyFloat "1.0"));
             ("eval_loss", NFloat (PyFloat "0.4")) ] in
  exists t,
    PyTorchTrain.main E0 B_torch (torch_args "train.json" (Some "val.json")) =
      ([EvRead "config.json"; EvLoadTokenizer "t5-small"; EvLoadModel "t5-small";
        EvRead "train.json"; EvRead "val.json";
        EvTrain t; EvSaveModel "out"; EvSaveTokenizer "out"; EvEvaluate;
        EvWrite "out/training_metrics.json" (json_dump_indent2 m);
        EvPrint (PyTorchTrain.metrics_line m)],
       Ok 0%Z).
Proof. eexists. vm_compute. reflexivity. Qed.

Lemma C8_witness :
  exists before t m,
    trace (PyTorchTrain.main E0 B_torch (torch_args "train.json" (Some "val.json"))) =
      before
      ++ [EvTrain t; EvSaveModel "out"; EvSaveTokenizer "out"]
      ++ (if has_validation E0 (Some "val.json") then [EvEvaluate] else [])
      ++ [EvWrite (PyTorchTrain.metrics_file "out") (json_dump_indent2 m);
          EvPrint (PyTorchTrain.metrics_line m)].
Proof.
  apply (proj1 (C8_save_follows_training_then_evaluation E0)
           B_torch (torch_args "train.json" (Some "val.json")) 0%Z).
  reflexivity.
Defined.

Lemma C5_witness :
  (outcome (PyTorchTrain.HumanizationDataset_init E0 "pairs.json" toy_tokenizer (JInt 512))
     = Ok {| ds_tokenizer := toy_tokenizer; ds_max_length := JInt 512;
             ds_data := JArr [record_ab; record_cd] |}
   /\ outcome (TensorFlowTrain.load_data E0 "pairs.json") = Ok (JArr [record_ab; record_cd]))
  /\
  (outcome (PyTorchTrain.HumanizationDataset_init E0 "pairs.jsonl" toy_tokenizer (JInt 512))
     = Ok {| ds_tokenizer := toy_tokenizer; ds_max_length := JInt 512;
             ds_data := JArr [record_ab; record_cd] |}
   /\ outcome (TensorFlowTrain.load_data E0 "pairs.jsonl") = Ok (JArr [record_ab; record_cd])
   /\ List.length [record_ab; record_cd] = List.length (readlines two_lines)).
Proof.
  split.
  - apply (proj1 (@C5_format_by_extension E0 toy_tokenizer (JInt 512) "pairs.json"
                    two_records eq_refl) eq_refl).
    reflexivity.
  - apply (proj2 (@C5_format_by_extension E0 toy_tokenizer (JInt 512) "pairs.jsonl"
                    two_lines eq_refl) eq_refl).
    repeat constructor.
Defined.

(** A file whose only record has no [input] field loads in both scripts. *)
Lemma C2_counterexample :
  JsonText.loads no_input_record = Ok (JArr [JObj [("output", JStr "b")]])
  /\ outcome (PyTorchTrain.HumanizationDataset_init E0 "noinput.json" toy_tokenizer (JInt 512))
     = Ok {| ds_tokenizer := toy_tokenizer; ds_max_length := JInt 512;
             ds_data := JArr [JObj [("output", JStr "b")]] |}
  /\ outcome (TensorFlowTrain.load_data E0 "noinput.json")
     = Ok (JArr [JObj [("output", JStr "b")]]).
Proof. repeat split. Qed.

Lemma C2_witness :
  let ds := {| ds_tokenizer := toy_tokenizer; ds_max_length := JInt 512;
               ds_data := JArr [JObj [("output", JStr "b")]] |} in
  outcome (PyTorchTrain.HumanizationDataset_init E0 "noinput.json" toy_tokenizer (JInt 512))
    = Ok ds
  /\ PyTorchTrain.HumanizationDataset_getitem ds 0 = Raise (KeyError "input").
Proof.
  destruct (@C2_missing_field_raises_at_getitem E0 toy_tokenizer (JInt 512) "noinput.json"
              no_input_record [JObj [("output", JStr "b")]] eq_refl eq_refl)
    as (Hinit & _ & Hget).
  split; [exact Hinit|].
  exact (proj1 (Hget 0%nat [("output", JStr "b")] eq_refl) eq_refl).
Defined.

(** The validation path is given and exists, the file holds no record:
    the run completes and its record has no [eval_loss]. *)
Lemma C3_counterexample :
  path_given_and_exists E0 (Some "empty_val.json") = true
  /\ exists m,
       outcome (PyTorchTrain.train_model E0 B_torch "t5-small" "train.json"
                  (Some "empty_val.json") "out" (JObj [("epochs", JInt 1)])) = Ok m
       /\ dict_keys m = ["train_loss"; "train_runtime"; "train_samples_per_second"; "epoch"]
       /\ dict_has m "eval_loss" = false.
Proof. split; [reflexivity|]. eexists. vm_compute. repeat split. Qed.

Lemma C3_witness :
  (exists m,
      outcome (PyTorchTrain.train_model E0 B_torch "t5-small" "train.json"
                 (Some "val.json") "out" (JObj [("epochs", JInt 1)])) = Ok m
      /\ dict_keys m = torch_required ++ ["eval_loss"])
  /\ (exists m,
      outcome (TensorFlowTrain.train_model E0 B_keras "train.json"
                 (Some "val.json") "out" (JObj [("epochs", JInt 1)])) = Ok m
      /\ dict_keys m = keras_required ++ keras_validation).
Proof.
  destruct (C3_eval_loss_iff_nonempty_validation E0) as [HT HK].
  split; eexists; (split; [reflexivity|]).
  - exact (proj1 (HT B_torch "t5-small" "train.json" (Some "val.json") "out"
                     (JObj [("epochs", JInt 1)]) _ eq_refl)).
  - exact (proj1 (HK B_keras "train.json" (Some "val.json") "out"
                     (JObj [("epochs", JInt 1)]) _ eq_refl)).
Defined.



(** A run with a validation set: the trainer is asked for best-model
    tracking only, not for early stopping or learning-rate decay. *)
Lemma C4_counterexample :
  has_validation E0 (Some "val.json") = true
  /\ exists t,
       In (EvTrain t)
          (trace (PyTorchTrain.train_model E0 B_torch "t5-small" "train.json"
                    (Some "val.json") "out" (JObj [])))
       /\ trainer_policies t = [BestCheckpoint]
       /\ has_policy EarlyStop (trainer_policies t) = false
       /\ has_policy LRDecay (trainer_policies t) = false.
Proof.
  split; [reflexivity|]. eexists. split.
  - vm_compute. do 4 right. left. reflexivity.
  - repeat split.
Qed.

Lemma C4_witness :
  exists fa,
    In (EvFit fa)
       (trace (TensorFlowTrain.train_model E0 B_keras "train.json" None "out" (JObj [])))
    /\ config_get (JObj []) "epochs" (JInt 10) = Ok (fit_epochs fa)
    /\ fit_policies fa = [BestCheckpoint; EarlyStop; LRDecay].
Proof.
  eexists. split.
  - vm_compute. do 3 right. left. reflexivity.
  - apply (proj2 (C4_policies_by_variant E0) B_keras "train.json" None "out" (JObj [])).
    vm_compute. do 3 right. left. reflexivity.
Defined.

End ConcreteRuns.

(* ===================================================================== *)
(** * More on loading                                                     *)
(* ===================================================================== *)

Section MoreLoading.

Variable E : env.

Lemma map_result_first_failure {A B} (f : A -> result B)
    (good : list A) (bad : A) (rest : list A) (ys : list B) (e : exn) :
  Forall2 (fun x y => f x = Ok y) good ys ->
  f bad = Raise e ->
  map_result f (good ++ bad :: rest) = Raise e.
Proof.
  intros Hgood Hbad.
  induction Hgood as [|x y good ys Hxy _ IH]; cbn.
  - now rewrite Hbad.
  - now rewrite Hxy, IH.
Qed.

Lemma Forall2_nth_left {A B} (P : A -> B -> Prop) (xs : list A) (ys : list B) :
  Forall2 P xs ys ->
  forall i, (i < List.length xs)%nat ->
  exists x y, nth_error xs i = Some x /\ nth_error ys i = Some y /\ P x y.
Proof.
  induction 1 as [|x y xs ys Hxy _ IH]; cbn; intros i Hi; [lia|].
  destruct i as [|i]; cbn.
  - now exists x, y.
  - apply IH. lia.
Qed.

(** The two scripts load a data file the same way: the same read, and the
    same records or the same exception. *)
Theorem loaders_agree (tk : tokenizer) (max_length : json) (path : string) :
  trace (TensorFlowTrain.load_data E path)
    = trace (PyTorchTrain.HumanizationDataset_init E path tk max_length)
  /\ outcome (TensorFlowTrain.load_data E path)
     = (try ds := outcome (PyTorchTrain.HumanizationDataset_init E path tk max_length) in
        Ok (ds_data ds)).
Proof.
  destruct (lookup E path) as [[content|]|] eqn:Hfile.
  - destruct (@loaders_unfold E tk max_length path content Hfile) as [-> ->].
    unfold trace, outcome. cbn. split; [reflexivity|].
    destruct (PyTorchTrain.read_records E path content) as [v|]; cbn; [|reflexivity].
    destruct (py_len v); reflexivity.
  - unfold TensorFlowTrain.load_data, PyTorchTrain.HumanizationDataset_init,
      call, bind, lift, emit, ret, open_r, trace, outcome.
    rewrite Hfile. now destruct (endswith path ".json").
  - unfold TensorFlowTrain.load_data, PyTorchTrain.HumanizationDataset_init,
      call, bind, lift, emit, ret, open_r, trace, outcome.
    rewrite Hfile. now destruct (endswith path ".json").
Qed.

(** A line-delimited file that loads gives a dataset with one item per
    line of the file, the i-th item being the decoded i-th line. *)
Theorem loaded_lines_are_items
    (tk : tokenizer) (max_length : json) (path content : string) (ds : HumanizationDataset) :
  lookup E path = Some (File content) ->
  endswith path ".json" = false ->
  outcome (PyTorchTrain.HumanizationDataset_init E path tk max_length) = Ok ds ->
  PyTorchTrain.HumanizationDataset_len ds = Ok (List.length (readlines content))
  /\ forall i, (i < List.length (readlines content))%nat ->
       exists line r,
         nth_error (readlines content) i = Some line
         /\ json_loads E line = Ok r
         /\ py_index (ds_data ds) (Z.of_nat i) = Ok r.
Proof.
  intros Hfile Hext.
  destruct (@loaders_unfold E tk max_length path content Hfile) as [-> _].
  unfold PyTorchTrain.read_records, outcome. rewrite Hext. cbn.
  destruct (map_result (json_loads E) (readlines content)) as [rs|] eqn:Hmap; cbn;
    [|discriminate].
  intros [= <-].
  pose proof (@map_result_ok_Forall2 _ _ _ _ _ Hmap) as Hall.
  unfold PyTorchTrain.HumanizationDataset_len. cbn. split.
  - f_equal. symmetry. eapply Forall2_length; eauto.
  - intros i Hi.
    destruct (@Forall2_nth_left _ _ _ _ _ Hall i Hi) as (line & r & Hl & Hr & Hdec).
    exists line, r. repeat split; auto.
    now apply list_index_nth.
Qed.

(** In a line-delimited file the first line that does not decode decides:
    both loaders raise its exception, after the read and nothing else. *)
Theorem first_bad_line_aborts_load
    (tk : tokenizer) (max_length : json) (path content : string)
    (good : list string) (bad : string) (rest : list string) (rs : list json) (e : exn) :
  lookup E path = Some (File content) ->
  endswith path ".json" = false ->
  readlines content = good ++ bad :: rest ->
  Forall2 (fun line r => json_loads E line = Ok r) good rs ->
  json_loads E bad = Raise e ->
  PyTorchTrain.HumanizationDataset_init E path tk max_length = ([EvRead path], Raise e)
  /\ TensorFlowTrain.load_data E path = ([EvRead path], Raise e).
Proof.
  intros Hfile Hext Hlines Hgood Hbad.
  destruct (@loaders_unfold E tk max_length path content Hfile) as [-> ->].
  unfold PyTorchTrain.read_records. rewrite Hext, Hlines.
  rewrite (@map_result_first_failure _ _ _ _ _ _ _ _ Hgood Hbad). now cbn.
Qed.

(** A [.json] file whose document is [null], a boolean or a number is
    decoded and then refused: both loaders raise [TypeError], from the
    [len] of the log message. *)
Theorem scalar_document_raises_TypeError
    (tk : tokenizer) (max_length : json) (path content : string) (v : json) :
  lookup E path = Some (File content) ->
  endswith path ".json" = true ->
  json_loads E content = Ok v ->
  (v = JNull \/ (exists b, v = JBool b) \/ (exists z, v = JInt z) \/ (exists f, v = JFloat f)) ->
  PyTorchTrain.HumanizationDataset_init E path tk max_length = ([EvRead path], Raise TypeError)
  /\ TensorFlowTrain.load_data E path = ([EvRead path], Raise TypeError).
Proof.
  intros Hfile Hext Hdoc Hscalar.
  destruct (@loaders_unfold E tk max_length path content Hfile) as [-> ->].
  unfold PyTorchTrain.read_records. rewrite Hext, Hdoc.
  destruct Hscalar as [->|[[b ->]|[[z ->]|[f ->]]]]; now cbn.
Qed.

(** A [.json] file whose document is one object, not an array, loads: the
    dataset's length is the number of its keys, and fetching any index
    raises [KeyError]. *)
Theorem object_document_loads_then_KeyError
    (tk : tokenizer) (max_length : json) (path content : string) (members : dict json) :
  lookup E path = Some (File content) ->
  endswith path ".json" = true ->
  json_loads E content = Ok (JObj members) ->
  let ds := {| ds_tokenizer := tk; ds_max_length := max_length; ds_data := JObj members |} in
  outcome (PyTorchTrain.HumanizationDataset_init E path tk max_length) = Ok ds
  /\ PyTorchTrain.HumanizationDataset_len ds = Ok (List.length members)
  /\ forall idx, PyTorchTrain.HumanizationDataset_getitem ds idx
                 = Raise (KeyError (int_repr idx)).
Proof.
  intros Hfile Hext Hdoc ds.
  destruct (@loaders_unfold E tk max_length path content Hfile) as [-> _].
  unfold PyTorchTrain.read_records. rewrite Hext, Hdoc. now cbn.
Qed.

End MoreLoading.

(* ===================================================================== *)
(** * More on encoding                                                    *)
(* ===================================================================== *)

Section MoreEncoding.

Variable tk : tokenizer.

Lemma list_index_out_of_range {A} (xs : list A) (i : Z) :
  (Z.of_nat (List.length xs) <= i \/ i < - Z.of_nat (List.length xs))%Z ->
  list_index xs i = Raise IndexError.
Proof.
  intros Hout. unfold list_index.
  destruct (i <? 0)%Z eqn:Hneg.
  - apply Z.ltb_lt in Hneg.
    replace ((0 <=? i + Z.of_nat (List.length xs))
             && (i + Z.of_nat (List.length xs) <? Z.of_nat (List.length xs)))%Z with false;
      [reflexivity|].
    symmetry. apply andb_false_iff. left. apply Z.leb_gt. lia.
  - apply Z.ltb_ge in Hneg.
    replace ((0 <=? i) && (i <? Z.of_nat (List.length xs)))%Z with false; [reflexivity|].
    symmetry. apply andb_false_iff. right. apply Z.ltb_ge. lia.
Qed.

Lemma list_index_negative {A} (xs : list A) (i : Z) :
  (- Z.of_nat (List.length xs) <= i < 0)%Z ->
  list_index xs i = list_index xs (i + Z.of_nat (List.length xs)).
Proof.
  intros [Hlo Hhi]. unfold list_index.
  replace (i <? 0)%Z with true by (symmetry; apply Z.ltb_lt; lia).
  replace (i + Z.of_nat (List.length xs) <? 0)%Z with false
    by (symmetry; apply Z.ltb_ge; lia).
  reflexivity.
Qed.

(** Fetching by index follows Python's list indexing: an index at or past
    the length, or below minus the length, raises [IndexError]; a negative
    index within range counts from the end. *)
Theorem getitem_index_bounds (max_length : json) (rs : list json) (idx : Z) :
  let ds := {| ds_tokenizer := tk; ds_max_length := max_length; ds_data := JArr rs |} in
  let n := Z.of_nat (List.length rs) in
  ((n <= idx \/ idx < - n)%Z ->
     PyTorchTrain.HumanizationDataset_getitem ds idx = Raise IndexError)
  /\ ((- n <= idx < 0)%Z ->
     PyTorchTrain.HumanizationDataset_getitem ds idx
       = PyTorchTrain.HumanizationDataset_getitem ds (idx + n)).
Proof.
  cbv zeta. unfold PyTorchTrain.HumanizationDataset_getitem. cbn [ds_data py_index].
  split; intros Hidx.
  - now rewrite (list_index_out_of_range _ Hidx).
  - now rewrite (list_index_negative _ Hidx).
Qed.


End MoreEncoding.

(* ===================================================================== *)
(** * More on runs                                                        *)
(* ===================================================================== *)

Section MoreRuns.

Variable E : env.

(** The configuration must decode to a dict.  Otherwise the pretrained
    variant stops at its first [config.get], after loading tokenizer and
    model and before reading any data; the from-scratch variant stops after
    reading the data and before any keras call. *)
Theorem config_must_be_dict
    (BT : PyTorchTrain.backend) (BK : TensorFlowTrain.backend)
    (name train : string) (val : option string) (out : string) (config : json) :
  (forall d, config <> JObj d) ->
  let rt := PyTorchTrain.train_model E BT name train val out config in
  let rk := TensorFlowTrain.train_model E BK train val out config in
  (exists e, outcome rt = Raise e)
  /\ (forall p, ~ In (EvRead p) (trace rt))
  /\ (forall tk, PyTorchTrain.AutoTokenizer_from_pretrained BT name = Ok tk ->
                 PyTorchTrain.AutoModel_from_pretrained BT name = Ok tt ->
                 rt = ([EvLoadTokenizer name; EvLoadModel name], Raise AttributeError))
  /\ (exists e, outcome rk = Raise e)
  /\ Forall (fun ev => exists p, ev = EvRead p) (trace rk).
Proof.
  intros Hcfg. cbv zeta.
  destruct config; try (exfalso; eapply Hcfg; reflexivity); clear Hcfg.
  all: split; [|split; [|split; [|split]]].
  all: try (intros tk Htk Hm;
            unfold PyTorchTrain.train_model, call, bind, lift, emit, ret, config_get;
            rewrite Htk, Hm; reflexivity).
  all: try (TorchFacts.unfold_run; walk_run;
            first [ eexists; reflexivity | intros p Hin; find_event Hin ]).
  all: KerasFacts.unfold_run; walk_run;
       first [ eexists; reflexivity | repeat constructor; eexists; reflexivity ].
Qed.

(** An empty validation path, or one that does not exist, is no error:
    both scripts run exactly as when no validation path is given. *)
Theorem absent_validation_path_is_no_validation
    (BT : PyTorchTrain.backend) (BK : TensorFlowTrain.backend)
    (name train p out : string) (config : json) :
  p = "" \/ lookup E p = None ->
  PyTorchTrain.train_model E BT name train (Some p) out config
    = PyTorchTrain.train_model E BT name train None out config
  /\ TensorFlowTrain.train_model E BK train (Some p) out config
    = TensorFlowTrain.train_model E BK train None out config.
Proof.
  intros Habsent.
  assert (Hno : path_given_and_exists E (Some p) = false).
  { unfold path_given_and_exists, path_exists.
    destruct Habsent as [-> | ->]; [reflexivity | apply andb_false_r]. }
  unfold PyTorchTrain.train_model, TensorFlowTrain.train_model.
  rewrite Hno. split; reflexivity.
Qed.

(** A validation file that is there but does not load is an error: both
    scripts stop before training. *)
Theorem unloadable_validation_file_aborts
    (BT : PyTorchTrain.backend) (BK : TensorFlowTrain.backend)
    (name train : string) (val : option string) (out : string) (config : json)
    (content : string) (e : exn) :
  path_given_and_exists E val = true ->
  open_r E (val_path val) = Ok content ->
  PyTorchTrain.read_records E (val_path val) content = Raise e ->
  let rt := PyTorchTrain.train_model E BT name train val out config in
  let rk := TensorFlowTrain.train_model E BK train val out config in
  (exists e', outcome rt = Raise e')
  /\ (forall t, ~ In (EvTrain t) (trace rt))
  /\ (exists e', outcome rk = Raise e')
  /\ (forall fa, ~ In (EvFit fa) (trace rk)).
Proof.
  intros Hpath Hopen Hrecords. cbv zeta. unfold val_path in *.
  split; [|split; [|split]]; revert Hpath Hopen Hrecords.
  1-2: TorchFacts.unfold_run; walk_run;
       intros; same_outcome;
       first [ eexists; reflexivity | congruence
             | let Hin := fresh "Hin" in intro Hin; find_event Hin ].
  all: KerasFacts.unfold_run; walk_run;
       intros; same_outcome;
       first [ eexists; reflexivity | congruence
             | let Hin := fresh "Hin" in intro Hin; find_event Hin ].
Qed.

(** A missing training file: the pretrained variant finds out only after it
    has loaded tokenizer and model; the from-scratch variant finds out at
    once.  Both raise [FileNotFoundError] for that path. *)
Theorem missing_training_file_is_FileNotFoundError
    (BT : PyTorchTrain.backend) (BK : TensorFlowTrain.backend)
    (name train : string) (val : option string) (out : string) (config : json) :
  lookup E train = None ->
  (forall tk d,
      PyTorchTrain.AutoTokenizer_from_pretrained BT name = Ok tk ->
      PyTorchTrain.AutoModel_from_pretrained BT name = Ok tt ->
      config = JObj d ->
      PyTorchTrain.train_model E BT name train val out config
        = ([EvLoadTokenizer name; EvLoadModel name], Raise (FileNotFoundError train)))
  /\ TensorFlowTrain.train_model E BK train val out config
     = ([], Raise (FileNotFoundError train)).
Proof.
  intros Hnone. split.
  - intros tk d Htk Hm ->.
    unfold PyTorchTrain.train_model, PyTorchTrain.HumanizationDataset_init,
      call, bind, lift, emit, ret, open_r, config_get.
    now rewrite Htk, Hm, Hnone.
  - unfold TensorFlowTrain.train_model, TensorFlowTrain.load_data,
      call, bind, lift, emit, ret, open_r.
    rewrite Hnone. now destruct (endswith train ".json").
Qed.

(** The configuration file comes first.  If it is missing, [main] raises
    [FileNotFoundError] before anything else happens; if it does not
    decode, [main] raises the decoder's exception right after reading it.
    No library call is made, in either script. *)
Theorem config_file_comes_first
    (BT : PyTorchTrain.backend) (BK : TensorFlowTrain.backend)
    (at_ : PyTorchTrain.args) (ak : TensorFlowTrain.args) :
  (lookup E (PyTorchTrain.arg_config at_) = None ->
     PyTorchTrain.main E BT at_
       = ([], Raise (FileNotFoundError (PyTorchTrain.arg_config at_))))
  /\ (forall content e,
        lookup E (PyTorchTrain.arg_config at_) = Some (File content) ->
        json_loads E content = Raise e ->
        PyTorchTrain.main E BT at_ = ([EvRead (PyTorchTrain.arg_config at_)], Raise e))
  /\ (lookup E (TensorFlowTrain.arg_config ak) = None ->
     TensorFlowTrain.main E BK ak
       = ([], Raise (FileNotFoundError (TensorFlowTrain.arg_config ak))))
  /\ (forall content e,
        lookup E (TensorFlowTrain.arg_config ak) = Some (File content) ->
        json_loads E content = Raise e ->
        TensorFlowTrain.main E BK ak = ([EvRead (TensorFlowTrain.arg_config ak)], Raise e)).
Proof.
  unfold PyTorchTrain.main, TensorFlowTrain.main, call, bind, lift, emit, ret, open_r.
  repeat split.
  - now intros ->.
  - intros content e -> Hbad. cbn. now rewrite Hbad.
  - now intros ->.
  - intros content e -> Hbad. cbn. now rewrite Hbad.
Qed.

End MoreRuns.

Section MoreOutcomes.

Variable E : env.

(** The save is not undone by a later failure.  When the final evaluation
    raises, the run ends in that exception with model and tokenizer saved,
    no metrics file and no printed line. *)
Theorem failed_evaluation_leaves_saved_model
    (B : PyTorchTrain.backend) (name train : string) (val : option string)
    (out : string) (config : json) (t : Trainer) (e : exn) :
  In (EvTrain t) (trace (PyTorchTrain.train_model E B name train val out config)) ->
  has_validation E val = true ->
  PyTorchTrain.Trainer_save_model B t = Ok tt ->
  PyTorchTrain.Tokenizer_save_pretrained B out = Ok tt ->
  PyTorchTrain.Trainer_evaluate B t = Raise e ->
  outcome (PyTorchTrain.train_model E B name train val out config) = Raise e
  /\ In (EvSaveModel out) (trace (PyTorchTrain.train_model E B name train val out config))
  /\ In (EvSaveTokenizer out) (trace (PyTorchTrain.train_model E B name train val out config))
  /\ existsb is_output (trace (PyTorchTrain.train_model E B name train val out config)) = false
  /\ ~ In EvEvaluate (trace (PyTorchTrain.train_model E B name train val out config)).
Proof.
  TorchFacts.unfold_run. walk_run.
  all: intros Hin; find_event Hin.
  all: injection Hin as <-; intros; same_outcome; try congruence.
  all: repeat split; cbn; auto 10; try congruence.
  all: try (intros Hev; find_event Hev).
Qed.

(** Every value of the pretrained variant's record comes from the
    library's answers: the training loss as returned, the runtime, the
    throughput and the epoch as reported by [train()], and the evaluation
    loss as reported by [evaluate()], each replaced by 0 when the library
    did not report it. *)
Theorem torch_record_values
    (B : PyTorchTrain.backend) (name train : string) (val : option string)
    (out : string) (config : json) (m : dict num) :
  outcome (PyTorchTrain.train_model E B name train val out config) = Ok m ->
  exists t tout,
    In (EvTrain t) (trace (PyTorchTrain.train_model E B name train val out config))
    /\ PyTorchTrain.Trainer_train B t = Ok tout
    /\ dict_lookup m "train_loss" = Some (training_loss tout)
    /\ (forall k, In k ["train_runtime"; "train_samples_per_second"; "epoch"] ->
          dict_lookup m k = Some (dict_get (train_metrics tout) k (NInt 0)))
    /\ (has_validation E val = true ->
          exists ev, PyTorchTrain.Trainer_evaluate B t = Ok ev
                     /\ dict_lookup m "eval_loss" = Some (dict_get ev "eval_loss" (NInt 0))).
Proof.
  intros Hrun.
  destruct (@TorchFacts.torch_train_model_ok _ _ _ _ _ _ _ _ Hrun)
    as (d & tr & tout & ev & _ & Ht & -> & _ & _ & _ & _ & _ & _ & Htrain & Hev).
  exists tr, tout. split; [|split; [exact Htrain|split; [reflexivity|split]]].
  - rewrite Ht. apply in_or_app. right. apply in_or_app. right. now left.
  - intros k [<-|[<-|[<-|[]]]]; reflexivity.
  - intros Hv. exists ev. split; [now apply Hev|]. now rewrite Hv.
Qed.

(** The hyper-parameters reach the trainer as configured, each with its
    default: whenever training returned, every [TrainingArguments] field
    is the configuration's value for its key, or the default when the key
    is absent; train and evaluation batch sizes are the same value. *)
Theorem hyperparameters_are_forwarded
    (B : PyTorchTrain.backend) (name train : string) (val : option string)
    (out : string) (config : json) (t : Trainer) :
  In (EvTrain t) (trace (PyTorchTrain.train_model E B name train val out config)) ->
  exists d,
    config = JObj d
    /\ ta_output_dir (tr_args t) = out
    /\ logging_dir (tr_args t) = String.append out "/logs"
    /\ num_train_epochs (tr_args t) = dict_get d "epochs" (JInt 10)
    /\ per_device_train_batch_size (tr_args t) = dict_get d "batch_size" (JInt 8)
    /\ per_device_eval_batch_size (tr_args t) = per_device_train_batch_size (tr_args t)
    /\ learning_rate (tr_args t) = dict_get d "learning_rate" (JFloat (PyFloat "5e-05"))
    /\ warmup_steps (tr_args t) = dict_get d "warmup_steps" (JInt 500)
    /\ logging_steps (tr_args t) = dict_get d "logging_steps" (JInt 100)
    /\ save_steps (tr_args t) = dict_get d "save_steps" (JInt 1000)
    /\ save_total_limit (tr_args t) = dict_get d "save_total_limit" (JInt 3)
    /\ fp16 (tr_args t) = dict_get d "fp16" (JBool false)
    /\ dataloader_num_workers (tr_args t) = dict_get d "num_workers" (JInt 4)
    /\ metric_for_best_model (tr_args t) = "loss"
    /\ greater_is_better (tr_args t) = false
    /\ report_to (tr_args t) = "none".
Proof.
  TorchFacts.unfold_run. walk_run.
  all: intros Hin; find_event Hin.
  all: injection Hin as <-; eexists; repeat split; reflexivity.
Qed.

(** The trainer's parts fit together: whenever training returned, the
    model name is the one asked for, the tokenizer is the one loaded under
    that name and is the one both datasets encode with, both datasets use
    the configured [max_length] (default 512), and the trainer holds a
    validation dataset exactly when the validation path is given and
    exists.  A validation file without records is still handed over, as
    an empty dataset, with the evaluation strategy [no]. *)
Theorem trainer_parts_are_consistent
    (B : PyTorchTrain.backend) (name train : string) (val : option string)
    (out : string) (config : json) (t : Trainer) :
  In (EvTrain t) (trace (PyTorchTrain.train_model E B name train val out config)) ->
  tr_model t = name
  /\ PyTorchTrain.AutoTokenizer_from_pretrained B name = Ok (tr_tokenizer t)
  /\ ds_tokenizer (tr_train_dataset t) = tr_tokenizer t
  /\ config_get config "max_length" (JInt 512) = Ok (ds_max_length (tr_train_dataset t))
  /\ (forall vd, tr_eval_dataset t = Some vd ->
        ds_tokenizer vd = tr_tokenizer t
        /\ ds_max_length vd = ds_max_length (tr_train_dataset t)
        /\ validation_records E val = Some (ds_data vd))
  /\ (tr_eval_dataset t = None <-> path_given_and_exists E val = false)
  /\ (forall vd, tr_eval_dataset t = Some vd -> has_validation E val = false ->
        PyTorchTrain.HumanizationDataset_len vd = Ok 0%nat
        /\ evaluation_strategy (tr_args t) = "no").
Proof.
  TorchFacts.unfold_run. walk_run.
  all: intros Hin; find_event Hin.
  all: injection Hin as <-; cbn.
  all: repeat split; try reflexivity; try assumption; try congruence.
  all: try (match goal with H : Some _ = Some _ |- _ => injection H as <- end;
            cbn in *;
            first [ reflexivity | congruence
                  | match goal with
                    | Hn : negb (Nat.eqb _ 0) = false |- _ =>
                        apply negb_false_iff, Nat.eqb_eq in Hn; rewrite ?Hn in *;
                        first [ reflexivity | assumption ]
                    end ]).
  all: try discriminate.
Qed.

(** The from-scratch run needs a usable history.  When [fit] returned and
    the model was saved, a history without [loss], or with [loss] and
    [accuracy] but, with a validation set, without [val_loss], ends the run
    in [KeyError] for that key: the model is saved, no metrics file is
    written. *)
Theorem history_must_have_the_losses
    (B : TensorFlowTrain.backend) (train : string) (val : option string)
    (out : string) (config : json) (fa : FitArgs) (h : History) (key : string) :
  In (EvFit fa) (trace (TensorFlowTrain.train_model E B train val out config)) ->
  TensorFlowTrain.model_fit B fa = Ok h ->
  (exists u, TensorFlowTrain.model_save B (path_join out "model") = Ok u) ->
  (key = "loss"
   \/ (key = "val_loss" /\ has_validation E val = true
       /\ (exists x, TensorFlowTrain.history_last h "loss" = Ok x)
       /\ (exists y, TensorFlowTrain.history_last h "accuracy" = Ok y))) ->
  dict_lookup h key = None ->
  outcome (TensorFlowTrain.train_model E B train val out config) = Raise (KeyError key)
  /\ In (EvKerasSave (path_join out "model"))
        (trace (TensorFlowTrain.train_model E B train val out config))
  /\ existsb is_output (trace (TensorFlowTrain.train_model E B train val out config)) = false.
Proof.
  KerasFacts.unfold_run. walk_run.
  all: intros Hin; find_event Hin.
  all: injection Hin as <-; intros Hfit [u Hsave] Hkey Hnone; same_outcome.
  all: try congruence.
  all: KerasFacts.settle_truth.
  all: destruct Hkey as [-> | (-> & Hval & [x Hx] & [y Hy])]; try congruence.
  all: repeat split; cbn; auto 10; try congruence.
Qed.

(** The values of the from-scratch record: the last loss and the last
    accuracy of the history that [fit] returned, and as epoch count the
    number of losses in it, which is at least 1; with a validation set,
    the last validation loss and accuracy of that history. *)
Theorem keras_record_values
    (B : TensorFlowTrain.backend) (train : string) (val : option string)
    (out : string) (config : json) (m : dict num) :
  outcome (TensorFlowTrain.train_model E B train val out config) = Ok m ->
  exists fa h losses accs l a,
    In (EvFit fa) (trace (TensorFlowTrain.train_model E B train val out config))
    /\ TensorFlowTrain.model_fit B fa = Ok h
    /\ dict_lookup h "loss" = Some losses
    /\ dict_lookup h "accuracy" = Some accs
    /\ list_index losses (-1) = Ok l
    /\ list_index accs (-1) = Ok a
    /\ losses <> []
    /\ dict_lookup m "final_train_loss" = Some (NFloat l)
    /\ dict_lookup m "final_train_accuracy" = Some (NFloat a)
    /\ dict_lookup m "epochs_trained" = Some (NInt (Z.of_nat (List.length losses)))
    /\ (has_validation E val = true ->
          exists vls vas vl va,
            dict_lookup h "val_loss" = Some vls
            /\ dict_lookup h "val_accuracy" = Some vas
            /\ list_index vls (-1) = Ok vl
            /\ list_index vas (-1) = Ok va
            /\ dict_lookup m "final_val_loss" = Some (NFloat vl)
            /\ dict_lookup m "final_val_accuracy" = Some (NFloat va)).
Proof.
  KerasFacts.unfold_run. walk_run.
  all: intros [= <-].
  all: KerasFacts.settle_truth; try congruence.
  all: do 6 eexists.
  all: repeat match goal with |- _ /\ _ => split end.
  all: try eassumption; try reflexivity.
  all: try (cbn; auto 10; fail).
  all: try (intros ->; match goal with H : list_index [] _ = Ok _ |- _ => discriminate H end).
  all: try (intros Hv; first [ discriminate Hv | congruence
                             | do 4 eexists; repeat split; try eassumption; reflexivity ]).
Qed.

End MoreOutcomes.

(* ===================================================================== *)
(** * More concrete runs                                                  *)
(* ===================================================================== *)

Section MoreConcreteRuns.

Import Examples MoreExamples.

Lemma loaded_lines_are_items_witness :
  PyTorchTrain.HumanizationDataset_len
    {| ds_tokenizer := toy_tokenizer; ds_max_length := JInt 512;
       ds_data := JArr [record_ab; record_cd] |} = Ok 2%nat
  /\ forall i, (i < 2)%nat ->
       exists line r,
         nth_error (readlines two_lines) i = Some line
         /\ JsonText.loads line = Ok r
         /\ py_index (JArr [record_ab; record_cd]) (Z.of_nat i) = Ok r.
Proof.
  exact (@loaded_lines_are_items E0 toy_tokenizer (JInt 512) "pairs.jsonl" two_lines
           {| ds_tokenizer := toy_tokenizer; ds_max_length := JInt 512;
              ds_data := JArr [record_ab; record_cd] |}
           eq_refl eq_refl eq_refl).
Defined.

Lemma first_bad_line_aborts_load_witness :
  PyTorchTrain.HumanizationDataset_init E1 "blank.jsonl" toy_tokenizer (JInt 512)
    = ([EvRead "blank.jsonl"], Raise JSONDecodeError)
  /\ TensorFlowTrain.load_data E1 "blank.jsonl"
    = ([EvRead "blank.jsonl"], Raise JSONDecodeError).
Proof.
  apply (@first_bad_line_aborts_load E1 toy_tokenizer (JInt 512) "blank.jsonl"
           blank_line_between
           [String.append (pair_text "a" "b") NL] NL [String.append (pair_text "c" "d") NL]
           [record_ab] JSONDecodeError eq_refl eq_refl eq_refl).
  - repeat constructor.
  - reflexivity.
Defined.

Lemma scalar_document_raises_TypeError_witness :
  PyTorchTrain.HumanizationDataset_init E1 "five.json" toy_tokenizer (JInt 512)
    = ([EvRead "five.json"], Raise TypeError)
  /\ TensorFlowTrain.load_data E1 "five.json" = ([EvRead "five.json"], Raise TypeError).
Proof.
  apply (@scalar_document_raises_TypeError E1 toy_tokenizer (JInt 512) "five.json" "5"
           (JInt 5) eq_refl eq_refl eq_refl).
  right. right. left. now exists 5%Z.
Defined.

Lemma object_document_loads_then_KeyError_witness :
  PyTorchTrain.HumanizationDataset_len
    {| ds_tokenizer := toy_tokenizer; ds_max_length := JInt 512; ds_data := record_ab |}
    = Ok 2%nat
  /\ PyTorchTrain.HumanizationDataset_getitem
       {| ds_tokenizer := toy_tokenizer; ds_max_length := JInt 512; ds_data := record_ab |} 0
     = Raise (KeyError "0").
Proof.
  destruct (@object_document_loads_then_KeyError E1 toy_tokenizer (JInt 512) "object.json"
              (pair_text "a" "b") [("input", JStr "a"); ("output", JStr "b")]
              eq_refl eq_refl eq_refl) as (_ & Hlen & Hget).
  split; [exact Hlen | exact (Hget 0%Z)].
Defined.


Lemma config_must_be_dict_witness :
  PyTorchTrain.train_model E0 B_torch "t5-small" "train.json" None "out" (JArr [])
    = ([EvLoadTokenizer "t5-small"; EvLoadModel "t5-small"], Raise AttributeError)
  /\ Forall (fun ev => exists p, ev = EvRead p)
       (trace (TensorFlowTrain.train_model E0 B_keras "train.json" None "out" (JArr []))).
Proof.
  assert (Hcfg : forall d, JArr [] <> JObj d) by (intros d; discriminate).
  destruct (@config_must_be_dict E0 B_torch B_keras "t5-small" "train.json" None "out"
              (JArr []) Hcfg) as (_ & _ & Ht & _ & Hk).
  split; [exact (Ht toy_tokenizer eq_refl eq_refl) | exact Hk].
Defined.

Lemma absent_validation_path_is_no_validation_witness :
  PyTorchTrain.train_model E0 B_torch "t5-small" "train.json" (Some "") "out" (JObj [])
    = PyTorchTrain.train_model E0 B_torch "t5-small" "train.json" None "out" (JObj [])
  /\ TensorFlowTrain.train_model E0 B_keras "train.json" (Some "nowhere.json") "out" (JObj [])
    = TensorFlowTrain.train_model E0 B_keras "train.json" None "out" (JObj []).
Proof.
  split.
  - apply (@absent_validation_path_is_no_validation E0 B_torch B_keras "t5-small"
             "train.json" "" "out" (JObj [])).
    now left.
  - apply (@absent_validation_path_is_no_validation E0 B_torch B_keras "t5-small"
             "train.json" "nowhere.json" "out" (JObj [])).
    now right.
Defined.

Lemma unloadable_validation_file_aborts_witness :
  (exists e, outcome (PyTorchTrain.train_model E1 B_torch "t5-small" "train.json"
                        (Some "blank.jsonl") "out" (JObj [])) = Raise e)
  /\ (forall t, ~ In (EvTrain t)
                    (trace (PyTorchTrain.train_model E1 B_torch "t5-small" "train.json"
                              (Some "blank.jsonl") "out" (JObj []))))
  /\ (exists e, outcome (TensorFlowTrain.train_model E1 B_keras "train.json"
                           (Some "blank.jsonl") "out" (JObj [])) = Raise e)
  /\ (forall fa, ~ In (EvFit fa)
                     (trace (TensorFlowTrain.train_model E1 B_keras "train.json"
                               (Some "blank.jsonl") "out" (JObj [])))).
Proof.
  exact (@unloadable_validation_file_aborts E1 B_torch B_keras "t5-small" "train.json"
           (Some "blank.jsonl") "out" (JObj []) blank_line_between JSONDecodeError
           eq_refl eq_refl eq_refl).
Defined.

Lemma missing_training_file_is_FileNotFoundError_witness :
  PyTorchTrain.train_model E0 B_torch "t5-small" "missing.json" None "out" (JObj [])
    = ([EvLoadTokenizer "t5-small"; EvLoadModel "t5-small"],
       Raise (FileNotFoundError "missing.json"))
  /\ TensorFlowTrain.train_model E0 B_keras "missing.json" None "out" (JObj [])
    = ([], Raise (FileNotFoundError "missing.json")).
Proof.
  destruct (@missing_training_file_is_FileNotFoundError E0 B_torch B_keras "t5-small"
              "missing.json" None "out" (JObj []) eq_refl) as [Ht Hk].
  split; [exact (Ht toy_tokenizer [] eq_refl eq_refl eq_refl) | exact Hk].
Defined.

Lemma config_file_comes_first_witness :
  let at_ := {| PyTorchTrain.arg_model_name := "t5-small";
                PyTorchTrain.arg_train_data := "train.json";
                PyTorchTrain.arg_val_data := None;
                PyTorchTrain.arg_output_dir := "out";
                PyTorchTrain.arg_config := "no_config.json" |} in
  let ak := {| TensorFlowTrain.arg_train_data := "train.json";
               TensorFlowTrain.arg_val_data := None;
               TensorFlowTrain.arg_output_dir := "out";
               TensorFlowTrain.arg_config := "pairs.jsonl" |} in
  PyTorchTrain.main E0 B_torch at_ = ([], Raise (FileNotFoundError "no_config.json"))
  /\ TensorFlowTrain.main E0 B_keras ak = ([EvRead "pairs.jsonl"], Raise JSONDecodeError).
Proof.
  intros at_ ak.
  destruct (@config_file_comes_first E0 B_torch B_keras at_ ak) as (Ht & _ & _ & Hk).
  split; [exact (Ht eq_refl) | exact (Hk two_lines JSONDecodeError eq_refl eq_refl)].
Defined.

Lemma failed_evaluation_leaves_saved_model_witness :
  let r := PyTorchTrain.train_model E0 B_torch_failing_evaluate "t5-small" "train.json"
             (Some "val.json") "out" (JObj []) in
  outcome r = Raise (BackendError "evaluate")
  /\ In (EvSaveModel "out") (trace r)
  /\ In (EvSaveTokenizer "out") (trace r)
  /\ existsb is_output (trace r) = false
  /\ ~ In EvEvaluate (trace r).
Proof.
  refine (@failed_evaluation_leaves_saved_model E0 B_torch_failing_evaluate "t5-small"
            "train.json" (Some "val.json") "out" (JObj []) trainer_with_validation
            (BackendError "evaluate") _ eq_refl eq_refl eq_refl eq_refl).
  vm_compute. do 4 right. left. reflexivity.
Defined.

Lemma torch_record_values_witness :
  exists t tout,
    In (EvTrain t)
       (trace (PyTorchTrain.train_model E0 B_torch "t5-small" "train.json" (Some "val.json")
                 "out" (JObj [])))
    /\ PyTorchTrain.Trainer_train B_torch t = Ok tout
    /\ dict_lookup [ ("train_loss", NFloat (PyFloat "0.5"));
                     ("train_runtime", NFloat (PyFloat "1.25"));
                     ("train_samples_per_second", NFloat (PyFloat "0.8"));
                     ("epoch", NFloat (PyFloat "1.0"));
                     ("eval_loss", NFloat (PyFloat "0.4")) ] "train_loss"
       = Some (training_loss tout).
Proof.
  destruct (@torch_record_values E0 B_torch "t5-small" "train.json" (Some "val.json") "out"
              (JObj []) _ eq_refl) as (t & tout & Hin & Htrain & Hloss & _).
  exists t, tout. repeat split; assumption.
Defined.

Lemma hyperparameters_are_forwarded_witness :
  exists d,
    JObj [] = JObj d
    /\ num_train_epochs (tr_args trainer_with_validation) = dict_get d "epochs" (JInt 10)
    /\ learning_rate (tr_args trainer_with_validation)
       = dict_get d "learning_rate" (JFloat (PyFloat "5e-05")).
Proof.
  assert (Hin : In (EvTrain trainer_with_validation)
                   (trace (PyTorchTrain.train_model E0 B_torch "t5-small" "train.json"
                             (Some "val.json") "out" (JObj []))))
    by (vm_compute; do 4 right; left; reflexivity).
  destruct (@hyperparameters_are_forwarded E0 B_torch "t5-small" "train.json"
              (Some "val.json") "out" (JObj []) trainer_with_validation Hin)
    as (d & Hd & _ & _ & Hep & _ & _ & Hlr & _).
  exists d. repeat split; assumption.
Defined.

Lemma trainer_parts_are_consistent_witness :
  tr_model trainer_with_validation = "t5-small"
  /\ ds_tokenizer (tr_train_dataset trainer_with_validation)
     = tr_tokenizer trainer_with_validation.
Proof.
  assert (Hin : In (EvTrain trainer_with_validation)
                   (trace (PyTorchTrain.train_model E0 B_torch "t5-small" "train.json"
                             (Some "val.json") "out" (JObj []))))
    by (vm_compute; do 4 right; left; reflexivity).
  destruct (@trainer_parts_are_consistent E0 B_torch "t5-small" "train.json"
              (Some "val.json") "out" (JObj []) trainer_with_validation Hin)
    as (Hm & _ & Htk & _).
  split; assumption.
Defined.

Lemma history_must_have_the_losses_witness :
  let r := TensorFlowTrain.train_model E0 B_keras_training_history "train.json"
             (Some "val.json") "out" (JObj []) in
  outcome r = Raise (KeyError "val_loss")
  /\ In (EvKerasSave "out/model") (trace r)
  /\ existsb is_output (trace r) = false.
Proof.
  refine (@history_must_have_the_losses E0 B_keras_training_history "train.json"
            (Some "val.json") "out" (JObj []) default_fit_args
            [ ("loss", [PyFloat "0.9"; PyFloat "0.5"]);
              ("accuracy", [PyFloat "0.6"; PyFloat "0.75"]) ]
            "val_loss" _ eq_refl _ _ eq_refl).
  - vm_compute. do 4 right. left. reflexivity.
  - now exists tt.
  - right. repeat split; eexists; reflexivity.
Defined.

Lemma keras_record_values_witness :
  exists fa h losses,
    TensorFlowTrain.model_fit B_keras_training_history fa = Ok h
    /\ dict_lookup h "loss" = Some losses
    /\ list_index losses (-1) = Ok (PyFloat "0.5")
    /\ dict_lookup [ ("final_train_loss", NFloat (PyFloat "0.5"));
                     ("final_train_accuracy", NFloat (PyFloat "0.75"));
                     ("epochs_trained", NInt 2) ] "epochs_trained"
       = Some (NInt (Z.of_nat (List.length losses))).
Proof.
  destruct (@keras_record_values E0 B_keras_training_history "train.json" None "out"
              (JObj []) _ eq_refl)
    as (fa & h & losses & accs & l & a & _ & Hfit & Hl & _ & Hlast & _ & _ & Hfl & _ & Hn & _).
  exists fa, h, losses. repeat split; try assumption.
  cbn in Hfl. injection Hfl as <-. exact Hlast.
Defined.

End MoreConcreteRuns.
